(** * sympcheck: session flow, session store and audio turn orchestration

    A shallow embedding of [medical_logic.py], [conversation_manager.py]
    and [audio_conversation_service.py], followed by the properties of the
    specification that concern them.

    Conventions of the embedding.
    - A Python [str] is a [string]; the characters covered are the 7-bit
      ASCII ones (on them [str.lower], [str.capitalize], [str.strip] and
      the regular expression class [\s] are the functions below).
    - A conversation state is the dict built by [_create_new_conversation]:
      a record with one field per key.  The dict is mutated in place by the
      flow engine, so the engine is written in a state-and-exception monad
      whose state survives a raised exception, as the dict does.
    - The collaborators (text generation, speech-to-text, text-to-speech)
      are given by their results: what a call returns, or that it raises.
    - A [datetime] is a number of microseconds; every reading of
      [datetime.utcnow()] is an argument of the function that makes it. *)

From Stdlib Require Import ZArith Ascii String Strings.Byte List Bool Lia.
From stdpp Require Import gmap strings list.

Local Open Scope Z_scope.

(* ===================================================================== *)
(** ** Python string primitives *)
(* ===================================================================== *)

Module Py.

(** [str.isspace] on one ASCII character; the same set is used by
    [str.strip()] and by [\s] in a [str] pattern. *)
Definition isspace (c : ascii) : bool :=
  let n := N_of_ascii c in
  ((9 <=? n) && (n <=? 13) || (28 <=? n) && (n <=? 32))%N.

Definition lower_char (c : ascii) : ascii :=
  let n := N_of_ascii c in
  if ((65 <=? n) && (n <=? 90))%N then ascii_of_N (n + 32) else c.

Definition upper_char (c : ascii) : ascii :=
  let n := N_of_ascii c in
  if ((97 <=? n) && (n <=? 122))%N then ascii_of_N (n - 32) else c.

(** [s.lower()] *)
Fixpoint lower (s : string) : string :=
  match s with
  | EmptyString => EmptyString
  | String c r => String (lower_char c) (lower r)
  end.

(** [s.capitalize()]: first character upper-cased, the rest lower-cased. *)
Definition capitalize (s : string) : string :=
  match s with
  | EmptyString => EmptyString
  | String c r => String (upper_char c) (lower r)
  end.

(** [s.lstrip()], [s.rstrip()], [s.strip()] *)
Fixpoint lstrip (s : string) : string :=
  match s with
  | EmptyString => EmptyString
  | String c r => if isspace c then lstrip r else s
  end.

Fixpoint rstrip (s : string) : string :=
  match s with
  | EmptyString => EmptyString
  | String c r =>
      match rstrip r with
      | EmptyString => if isspace c then EmptyString else String c EmptyString
      | r' => String c r'
      end
  end.

Definition strip (s : string) : string := rstrip (lstrip s).

(** [s.startswith(p)] *)
Fixpoint startswith (s p : string) : bool :=
  match p, s with
  | EmptyString, _ => true
  | String _ _, EmptyString => false
  | String a p', String b s' => Ascii.eqb a b && startswith s' p'
  end.

(** [p in s] *)
Fixpoint contains (s p : string) : bool :=
  startswith s p ||
  match s with
  | EmptyString => false
  | String _ r => contains r p
  end.

(** [s[n:]] for [0 <= n] *)
Fixpoint drop (n : nat) (s : string) : string :=
  match n, s with
  | O, _ => s
  | S _, EmptyString => EmptyString
  | S k, String _ r => drop k r
  end.

(** [s.replace(old, new)] for a non-empty [old]: the occurrences are
    taken from the left and do not overlap.  [skip] counts the characters
    of the current occurrence still to be passed over. *)
Fixpoint replace_from (old new : string) (skip : nat) (s : string) : string :=
  match s with
  | EmptyString => EmptyString
  | String c r =>
      match skip with
      | S k => replace_from old new k r
      | O =>
          if startswith s old
          then new +:+ replace_from old new (String.length old - 1) r
          else String c (replace_from old new 0 r)
      end
  end.

Definition replace (old new s : string) : string := replace_from old new 0 s.

(** [re.sub(r'\s+', ' ', s)]: every maximal run of whitespace becomes one
    space.  [in_run] tells that the previous character belonged to a run
    already replaced. *)
Fixpoint sub_spaces (in_run : bool) (s : string) : string :=
  match s with
  | EmptyString => EmptyString
  | String c r =>
      if isspace c
      then (if in_run then sub_spaces true r else String " " (sub_spaces true r))
      else String c (sub_spaces false r)
  end.

(** [sep.join(l)] *)
Fixpoint join (sep : string) (l : list string) : string :=
  match l with
  | [] => EmptyString
  | [x] => x
  | x :: r => x +:+ sep +:+ join sep r
  end.

(** Truth value of an [Optional[str]]: [None] and [''] are false. *)
Definition truthy (o : option string) : bool :=
  match o with
  | Some (String _ _) => true
  | _ => false
  end.

End Py.

(* ===================================================================== *)
(** ** Data model *)
(* ===================================================================== *)

(** A [datetime] is counted in microseconds.  The text of a timestamp
    field is kept as what [datetime.fromisoformat] makes of it: the
    instant it denotes, or nothing when the text does not parse. *)
Inductive isotext : Type :=
| IsoText (t : Z)
| Malformed (s : string).

(** The dict of [_create_new_conversation], one field per key. *)
Record ConversationState : Type := mkState {
  question_number : Z;
  is_complete : bool;
  initial_symptom : string;
  answers : list string;
  created_at : isotext;
  last_updated : isotext
}.

Definition set_question_number (n : Z) (st : ConversationState) :=
  mkState n (is_complete st) (initial_symptom st) (answers st)
          (created_at st) (last_updated st).

Definition set_is_complete (b : bool) (st : ConversationState) :=
  mkState (question_number st) b (initial_symptom st) (answers st)
          (created_at st) (last_updated st).

Definition set_initial_symptom (s : string) (st : ConversationState) :=
  mkState (question_number st) (is_complete st) s (answers st)
          (created_at st) (last_updated st).

Definition set_last_updated (t : isotext) (st : ConversationState) :=
  mkState (question_number st) (is_complete st) (initial_symptom st)
          (answers st) (created_at st) t.

(** [conversation_state['answers'].append(x)] *)
Definition append_answer (x : string) (st : ConversationState) :=
  mkState (question_number st) (is_complete st) (initial_symptom st)
          (answers st ++ [x]) (created_at st) (last_updated st).

(** What a call to a collaborator does: it returns an [Optional] value or
    it raises an exception (kept by its message). *)
Inductive outcome (A : Type) : Type :=
| Returns (r : option A)
| Raises (e : string).
Arguments Returns {A} r.
Arguments Raises {A} e.

(* ===================================================================== *)
(** ** The state-and-exception monad of the flow engine *)
(* ===================================================================== *)

Module Flow.

Inductive result (A : Type) : Type :=
| Normal (a : A)
| Raised (e : string).
Arguments Normal {A} a.
Arguments Raised {A} e.

(** A computation on the conversation dict.  The dict after the
    computation is given in both cases: a mutation made before an
    exception stays. *)
Definition M (A : Type) : Type :=
  ConversationState -> result A * ConversationState.

Definition ret {A} (a : A) : M A := fun st => (Normal a, st).

Definition bind {A B} (c : M A) (k : A -> M B) : M B :=
  fun st =>
    match c st with
    | (Normal a, st') => k a st'
    | (Raised e, st') => (Raised e, st')
    end.

Definition raise {A} (e : string) : M A := fun st => (Raised e, st).

(** [try: body  except Exception as e: handler e] *)
Definition try_except {A} (body : M A) (handler : string -> M A) : M A :=
  fun st =>
    match body st with
    | (Normal a, st') => (Normal a, st')
    | (Raised e, st') => handler e st'
    end.

(** Reading the dict and mutating it in place. *)
Definition get : M ConversationState := fun st => (Normal st, st).
Definition modify (f : ConversationState -> ConversationState) : M unit :=
  fun st => (Normal tt, f st).

(** A call to a collaborator. *)
Definition call {A} (o : outcome A) : M (option A) :=
  match o with
  | Returns r => ret r
  | Raises e => raise e
  end.

#[global] Instance M_ret : MRet M := @ret.
#[global] Instance M_bind : MBind M := fun A B k c => bind c k.

End Flow.


(* ===================================================================== *)
(** ** medical_logic.py *)
(* ===================================================================== *)

(** The text-generation client handed to [process_message]. *)
Record GroqClient : Type := mkGroq {
  generate_follow_up_question : string -> Z -> list string -> outcome string;
  generate_diagnosis : string -> list string -> outcome string
}.

(** The dict returned by [process_message]. *)
Record Response : Type := mkResponse {
  bot_message : string;
  conversation_state : ConversationState
}.

Module MedicalLogic.
Import Flow.

Definition max_questions : Z := 3.

(** [self.symptom_patterns], in the order of the dict literal. *)
Definition symptom_patterns : list (string * list string) :=
  [ ("headache", ["headache"; "head pain"; "head ache"; "migraine"]);
    ("fever", ["fever"; "temperature"; "hot"; "burning up"]);
    ("cough", ["cough"; "coughing"; "hack"]);
    ("pain", ["pain"; "hurt"; "ache"; "sore"]);
    ("nausea", ["nausea"; "nauseous"; "sick to stomach"; "queasy"]);
    ("fatigue", ["tired"; "fatigue"; "exhausted"; "weak"]);
    ("dizziness", ["dizzy"; "dizziness"; "lightheaded"; "vertigo"]) ].

(** [_normalize_message] *)
Definition collapse_whitespace (message : string) : string :=
  Py.sub_spaces false (Py.strip message).

Definition _normalize_message (message : string) : string :=
  let message := collapse_whitespace message in
  let message := Py.replace "no" "no" (Py.replace "yes" "yes" message) in
  let message := Py.replace "n" "no" (Py.replace "y" "yes" message) in
  message.

(** [_clean_symptom_text] *)
Definition prefixes_to_remove : list string :=
  ["i have"; "i am experiencing"; "i feel"; "i got"; "i'm having"].

(** The loop over the prefixes, left at its first hit. *)
Fixpoint remove_first_prefix (prefixes : list string) (text_lower : string)
  : string :=
  match prefixes with
  | [] => text_lower
  | prefix :: rest =>
      if Py.startswith text_lower prefix
      then Py.strip (Py.drop (String.length prefix) text_lower)
      else remove_first_prefix rest text_lower
  end.

Definition _clean_symptom_text (text : string) : string :=
  let text_lower := Py.strip (Py.lower text) in
  let text_lower := remove_first_prefix prefixes_to_remove text_lower in
  match text_lower with
  | EmptyString => text
  | _ => Py.capitalize text_lower
  end.

(** [_extract_symptom]: the two nested loops, left at the first pattern
    found in the lower-cased message. *)
Fixpoint first_symptom_type (table : list (string * list string))
         (message_lower : string) : option string :=
  match table with
  | [] => None
  | (symptom_type, patterns) :: rest =>
      if existsb (Py.contains message_lower) patterns
      then Some symptom_type
      else first_symptom_type rest message_lower
  end.

Definition _extract_symptom (message : string) : string :=
  match first_symptom_type symptom_patterns (Py.lower message) with
  | Some symptom_type => symptom_type
  | None => _clean_symptom_text message
  end.

(** [_get_fallback_question]: [fallback_questions.get(n, [...])[0]] *)
Definition _get_fallback_question (symptom : string) (n : Z) : string :=
  if n =? 1 then "How long have you been experiencing this symptom?"
  else if n =? 2 then "Are you experiencing any other symptoms along with this?"
  else if n =? 3 then "How is this affecting your daily activities?"
  else "How are you feeling now?".

(** [_get_fallback_diagnosis]; the template keeps the line breaks and the
    indentation of the source text. *)
Definition nl : string := String (ascii_of_nat 10) EmptyString.
Definition indent : string := "        ".

Definition _get_fallback_diagnosis (st : ConversationState) : string :=
  let symptom := initial_symptom st in
  let answers := answers st in
  "Based on your symptoms of " +:+ symptom +:+ " and your responses ("
    +:+ Py.join ", " answers +:+ "), " +:+ nl
    +:+ indent +:+ "I recommend that you:" +:+ nl
    +:+ indent +:+ nl
    +:+ indent +:+ "1. Monitor your symptoms closely" +:+ nl
    +:+ indent +:+ "2. Get adequate rest and stay hydrated" +:+ nl
    +:+ indent +:+ "3. Consider over-the-counter pain relief if appropriate" +:+ nl
    +:+ indent +:+ "4. Consult with a healthcare professional if symptoms persist or worsen" +:+ nl
    +:+ indent +:+ nl
    +:+ indent +:+ "This is general advice only. Please seek professional medical attention for proper diagnosis and treatment.".

(** [_generate_follow_up_question]: an exception of the client is caught
    and [None] is returned. *)
Definition _generate_follow_up_question (symptom : string) (n : Z)
           (previous_answers : list string) (groq : GroqClient)
  : M (option string) :=
  try_except
    (call (generate_follow_up_question groq symptom n previous_answers))
    (fun _ => ret None).

(** [_generate_diagnosis] *)
Definition _generate_diagnosis (groq : GroqClient) : M string :=
  try_except
    (st ← get;
     diagnosis ← call (generate_diagnosis groq (initial_symptom st) (answers st));
     if Py.truthy diagnosis
     then ret (default EmptyString diagnosis)
     else (st ← get; ret (_get_fallback_diagnosis st)))
    (fun _ => st ← get; ret (_get_fallback_diagnosis st)).

(** [_create_error_response] *)
Definition error_message : string :=
  "I'm sorry, I'm having trouble processing your message right now. Please try again or consult a healthcare professional for immediate assistance.".

Definition _create_error_response (st : ConversationState) : Response :=
  mkResponse error_message st.

(** [_handle_initial_symptom] *)
Definition _handle_initial_symptom (message : string) (groq : GroqClient)
  : M Response :=
  let symptom := _extract_symptom message in
  modify (set_initial_symptom symptom);;
  modify (set_question_number 1);;
  question ← _generate_follow_up_question symptom 1 [] groq;
  let question :=
    if Py.truthy question then default EmptyString question
    else _get_fallback_question symptom 1 in
  st ← get;
  ret (mkResponse question st).

(** [_handle_follow_up_response] *)
Definition _handle_follow_up_response (message : string) (groq : GroqClient)
  : M Response :=
  st ← get;
  let current_question := question_number st in
  modify (append_answer message);;
  if max_questions <=? current_question
  then
    diagnosis ← _generate_diagnosis groq;
    modify (set_is_complete true);;
    st ← get;
    ret (mkResponse diagnosis st)
  else
    let next_question_num := current_question + 1 in
    st ← get;
    question ← _generate_follow_up_question
                  (initial_symptom st) next_question_num (answers st) groq;
    st ← get;
    let question :=
      if Py.truthy question then default EmptyString question
      else _get_fallback_question (initial_symptom st) next_question_num in
    modify (set_question_number next_question_num);;
    st ← get;
    ret (mkResponse question st).

(** The body of the [try] in [process_message]. *)
Definition process_message_body (user_message : string) (groq : GroqClient)
  : M Response :=
  let normalized_message := _normalize_message user_message in
  st ← get;
  if question_number st =? 0
  then _handle_initial_symptom normalized_message groq
  else _handle_follow_up_response normalized_message groq.

(** [process_message]: the handler answers with the dict as it is when
    the exception arrives. *)
Definition process_message (user_message : string)
           (st : ConversationState) (groq : GroqClient) : Response :=
  match process_message_body user_message groq st with
  | (Normal r, _) => r
  | (Raised _, st') => _create_error_response st'
  end.

(** A session served turn after turn: each turn has its message and the
    behaviour of the client during that turn. *)
Fixpoint process_turns (turns : list (string * GroqClient))
         (st : ConversationState) : ConversationState :=
  match turns with
  | [] => st
  | (user_message, groq) :: rest =>
      process_turns rest
        (conversation_state (process_message user_message st groq))
  end.

End MedicalLogic.

(* ===================================================================== *)
(** ** conversation_manager.py *)
(* ===================================================================== *)

Module ConversationManager.

(** [self.expiry_hours] and [timedelta(hours=...)] in microseconds. *)
Definition expiry_hours : Z := 24.
Definition timedelta_hours (h : Z) : Z := h * 3600000000.

(** [t.isoformat()] and [datetime.fromisoformat(x)]; [None] stands for
    the [ValueError] of a text that does not parse. *)
Definition isoformat (t : Z) : isotext := IsoText t.

Definition fromisoformat (x : isotext) : option Z :=
  match x with
  | IsoText t => Some t
  | Malformed _ => None
  end.

(** [_create_new_conversation]; [t_created] and [t_updated] are the two
    readings of [datetime.utcnow()]. *)
Definition _create_new_conversation (t_created t_updated : Z)
  : ConversationState :=
  mkState 0 false EmptyString [] (isoformat t_created) (isoformat t_updated).

(** [_is_conversation_expired]; [now] is the reading of the clock. *)
Definition _is_conversation_expired (now : Z) (conversation : ConversationState)
  : bool :=
  match fromisoformat (last_updated conversation) with
  | Some last_updated =>
      let expiry_time := last_updated + timedelta_hours expiry_hours in
      expiry_time <? now
  | None => true
  end.

(** [get_conversation]: the state returned and [self.conversations]
    after the call. *)
Definition get_conversation (session_id : string) (now t_created t_updated : Z)
           (conversations : gmap string ConversationState)
  : ConversationState * gmap string ConversationState :=
  match conversations !! session_id with
  | None =>
      let fresh := _create_new_conversation t_created t_updated in
      (fresh, <[session_id := fresh]> conversations)
  | Some conversation =>
      if _is_conversation_expired now conversation
      then
        let fresh := _create_new_conversation t_created t_updated in
        (fresh, <[session_id := fresh]> conversations)
      else (conversation, conversations)
  end.

(** [update_conversation] *)
Definition update_conversation (session_id : string)
           (new_state : ConversationState) (now : Z)
           (conversations : gmap string ConversationState)
  : gmap string ConversationState :=
  <[session_id := set_last_updated (isoformat now) new_state]> conversations.

(** [reset_conversation] *)
Definition reset_conversation (session_id : string) (t_created t_updated : Z)
           (conversations : gmap string ConversationState)
  : gmap string ConversationState :=
  <[session_id := _create_new_conversation t_created t_updated]> conversations.

End ConversationManager.

(* ===================================================================== *)
(** ** audio_conversation_service.py *)
(* ===================================================================== *)

Inductive Role : Type := user | assistant.

(** One entry of [self.conversation_history]. *)
Record Message : Type := mkMessage {
  role : Role;
  content : string
}.

(** The dict returned by an audio turn.  [audio_response] is the value
    under ['audio_response_path'] (a path) in the path-based turn and
    under ['audio_response_bytes'] in the bytes-based one. *)
Record AudioResult (A : Type) : Type := mkAudioResult {
  success : bool;
  transcribed_text : string;
  ai_response : string;
  audio_response : A;
  error : string
}.
Arguments mkAudioResult {A}.
Arguments success {A}.
Arguments transcribed_text {A}.
Arguments ai_response {A}.
Arguments audio_response {A}.
Arguments error {A}.

(** The three services held by the orchestrator and the temporary file
    of the path-based turn, by what their calls do. *)
Record Services : Type := mkServices {
  transcribe_audio : string -> string -> outcome string;
  transcribe_audio_from_bytes : list byte -> string -> outcome string;
  generate_audio_conversation_response :
    string -> list Message -> outcome string;
  text_to_speech : string -> option string -> outcome (list byte);
  named_temporary_file : outcome string
}.

Module AudioConversationService.

Definition set_transcribed_text {A} (x : string) (r : AudioResult A) :=
  mkAudioResult (success r) x (ai_response r) (audio_response r) (error r).
Definition set_ai_response {A} (x : string) (r : AudioResult A) :=
  mkAudioResult (success r) (transcribed_text r) x (audio_response r) (error r).
Definition set_audio_response {A} (x : A) (r : AudioResult A) :=
  mkAudioResult (success r) (transcribed_text r) (ai_response r) x (error r).
Definition set_error {A} (x : string) (r : AudioResult A) :=
  mkAudioResult (success r) (transcribed_text r) (ai_response r)
                (audio_response r) x.
Definition set_success {A} (x : bool) (r : AudioResult A) :=
  mkAudioResult x (transcribed_text r) (ai_response r) (audio_response r)
                (error r).

(** The [except Exception as e] of both turns. *)
Definition processing_error {A} (e : string) (r : AudioResult A) :=
  set_error ("Processing error: " +:+ e) r.

(** Truth value of an [Optional[bytes]]. *)
Definition truthy_bytes (o : option (list byte)) : bool :=
  match o with
  | Some (_ :: _) => true
  | _ => false
  end.

(** [l[-n:]] for [0 < n] *)
Definition last_entries (n : nat) (l : list Message) : list Message :=
  skipn (length l - n) l.

(** [_update_conversation_history] *)
Definition _update_conversation_history (user_input ai_response : string)
           (conversation_history : list Message) : list Message :=
  let h := conversation_history ++ [mkMessage user user_input] in
  let h := h ++ [mkMessage assistant ai_response] in
  if (20 <? length h)%nat then last_entries 20 h else h.

(** [_generate_audio_response]: the path of the audio file, or [None]. *)
Definition _generate_audio_response (svc : Services) (text : string)
  : option string :=
  match named_temporary_file svc with
  | Raises _ | Returns None => None
  | Returns (Some temp_path) =>
      match text_to_speech svc text (Some temp_path) with
      | Raises _ => None
      | Returns audio_data =>
          if truthy_bytes audio_data then Some temp_path else None
      end
  end.

(** [process_audio_conversation]: the dict returned and
    [self.conversation_history] after the call. *)
Definition process_audio_conversation (svc : Services)
           (audio_file_path language : string)
           (conversation_history : list Message)
  : AudioResult string * list Message :=
  let result := mkAudioResult false EmptyString EmptyString EmptyString
                              EmptyString in
  match transcribe_audio svc audio_file_path language with
  | Raises e => (processing_error e result, conversation_history)
  | Returns transcribed =>
    if negb (Py.truthy transcribed)
    then (set_error "Failed to transcribe audio" result, conversation_history)
    else
      let transcribed_text := default EmptyString transcribed in
      let result := set_transcribed_text transcribed_text result in
      match generate_audio_conversation_response svc transcribed_text
              conversation_history with
      | Raises e => (processing_error e result, conversation_history)
      | Returns generated =>
        if negb (Py.truthy generated)
        then (set_error "Failed to generate AI response" result,
              conversation_history)
        else
          let ai_response := default EmptyString generated in
          let result := set_ai_response ai_response result in
          match _generate_audio_response svc ai_response with
          | None => (set_error "Failed to generate audio response" result,
                     conversation_history)
          | Some EmptyString =>
              (set_error "Failed to generate audio response" result,
               conversation_history)
          | Some audio_response_path =>
              let result := set_audio_response audio_response_path result in
              (set_success true result,
               _update_conversation_history transcribed_text ai_response
                 conversation_history)
          end
      end
  end.

(** [process_audio_conversation_from_bytes] *)
Definition process_audio_conversation_from_bytes (svc : Services)
           (audio_bytes : list byte) (language : string)
           (conversation_history : list Message)
  : AudioResult (list byte) * list Message :=
  let result := mkAudioResult false EmptyString EmptyString [] EmptyString in
  match transcribe_audio_from_bytes svc audio_bytes language with
  | Raises e => (processing_error e result, conversation_history)
  | Returns transcribed =>
    if negb (Py.truthy transcribed)
    then (set_error "Failed to transcribe audio" result, conversation_history)
    else
      let transcribed_text := default EmptyString transcribed in
      let result := set_transcribed_text transcribed_text result in
      match generate_audio_conversation_response svc transcribed_text
              conversation_history with
      | Raises e => (processing_error e result, conversation_history)
      | Returns generated =>
        if negb (Py.truthy generated)
        then (set_error "Failed to generate AI response" result,
              conversation_history)
        else
          let ai_response := default EmptyString generated in
          let result := set_ai_response ai_response result in
          match text_to_speech svc ai_response None with
          | Raises e => (processing_error e result, conversation_history)
          | Returns audio =>
            if negb (truthy_bytes audio)
            then (set_error "Failed to generate audio response" result,
                  conversation_history)
            else
              let result := set_audio_response (default [] audio) result in
              (set_success true result,
               _update_conversation_history transcribed_text ai_response
                 conversation_history)
          end
      end
  end.

(** One request to the orchestrator, in either call shape. *)
Inductive Turn : Type :=
| FromPath (audio_file_path language : string)
| FromBytes (audio_bytes : list byte) (language : string).

Definition history_after (svc : Services) (t : Turn) (h : list Message)
  : list Message :=
  match t with
  | FromPath p l => snd (process_audio_conversation svc p l h)
  | FromBytes b l => snd (process_audio_conversation_from_bytes svc b l h)
  end.

(** The history after a series of requests, each served with the
    services as they behave during it; [__init__] starts from [[]]. *)
Fixpoint serve (turns : list (Services * Turn)) (h : list Message)
  : list Message :=
  match turns with
  | [] => h
  | (svc, t) :: rest => serve rest (history_after svc t h)
  end.

End AudioConversationService.

(* ===================================================================== *)
(** ** Vocabulary of the statements *)
(* ===================================================================== *)

Module FlowSpec.
Import MedicalLogic.

(** A state as the session store creates it. *)
Definition fresh (t_created t_updated : Z) : ConversationState :=
  ConversationManager._create_new_conversation t_created t_updated.

(** The question the engine answers with: the generated one when the
    client returned a non-empty text, the static one otherwise. *)
Definition question_text (groq : GroqClient) (symptom : string) (n : Z)
           (previous_answers : list string) : string :=
  match generate_follow_up_question groq symptom n previous_answers with
  | Returns (Some (String c r)) => String c r
  | _ => _get_fallback_question symptom n
  end.

(** The diagnosis the engine answers with, for the dict [st] that already
    holds the last answer. *)
Definition diagnosis_text (groq : GroqClient) (st : ConversationState)
  : string :=
  match generate_diagnosis groq (initial_symptom st) (answers st) with
  | Returns (Some (String c r)) => String c r
  | _ => _get_fallback_diagnosis st
  end.

(** The client without an API key: every call returns [None]. *)
Definition groq_unavailable : GroqClient :=
  mkGroq (fun _ _ _ => Returns None) (fun _ _ => Returns None).

(** A client that raises at every call. *)
Definition groq_raising : GroqClient :=
  mkGroq (fun _ _ _ => Raises "connection reset")
         (fun _ _ => Raises "connection reset").

(** A session three turns in: the symptom is classified, two answers are
    recorded and the third question has been asked. *)
Definition third_question_asked : ConversationState :=
  process_turns [("I have a headache", groq_unavailable);
                 ("a week", groq_unavailable);
                 ("it is mild", groq_unavailable)] (fresh 0 0).

(** The same session after its diagnosis turn. *)
Definition diagnosed : ConversationState :=
  conversation_state
    (process_message "worse at dusk" third_question_asked groq_unavailable).

(** The turn as it goes when nothing usable comes from the client. *)
Definition fallback_turn (user_message : string) (st : ConversationState)
  : Response :=
  let message := _normalize_message user_message in
  if question_number st =? 0 then
    let symptom := _extract_symptom message in
    mkResponse (_get_fallback_question symptom 1)
               (set_question_number 1 (set_initial_symptom symptom st))
  else if max_questions <=? question_number st then
    let st1 := append_answer message st in
    mkResponse (_get_fallback_diagnosis st1) (set_is_complete true st1)
  else
    let st1 := append_answer message st in
    mkResponse (_get_fallback_question (initial_symptom st)
                                       (question_number st + 1))
               (set_question_number (question_number st + 1) st1).

(** What holds of the dict after [k] turns of a session. *)
Definition after_turns (k : Z) (st : ConversationState) : Prop :=
  question_number st = Z.min k max_questions /\
  Z.of_nat (length (answers st)) = Z.max 0 (k - 1) /\
  is_complete st = (max_questions <? k).

(** Unfolding of one turn of the engine. *)
Ltac run_flow :=
  unfold process_message, process_message_body, _handle_initial_symptom,
    _handle_follow_up_response, _generate_follow_up_question,
    _generate_diagnosis, question_text, diagnosis_text,
    mbind, Flow.M_bind, Flow.bind, Flow.try_except, Flow.call, Flow.get,
    Flow.modify, Flow.ret, Flow.raise;
  cbn beta iota.

End FlowSpec.

Module TextSpec.
Import MedicalLogic.

(** The words of a text: its maximal runs of characters that are not
    whitespace, in order. *)
Fixpoint words (s : string) : list string :=
  match s with
  | EmptyString => []
  | String c r =>
      if Py.isspace c then words r
      else
        match r with
        | EmptyString => [String c EmptyString]
        | String d _ =>
            if Py.isspace d then String c EmptyString :: words r
            else
              match words r with
              | w :: ws => String c w :: ws
              | [] => [String c EmptyString]
              end
        end
  end.

(** A text with its whitespace runs collapsed to single spaces and its
    ends trimmed: its words, one space between two of them. *)
Definition whitespace_normalized (s : string) : string :=
  Py.join " " (words s).

(** The character [c] does not occur in [s]. *)
Fixpoint free_of (c : ascii) (s : string) : bool :=
  match s with
  | EmptyString => true
  | String d r => negb (Ascii.eqb c d) && free_of c r
  end.

(** [p] occurs in [s] as a substring. *)
Definition occurs_in (p s : string) : Prop :=
  exists a b, s = a +:+ p +:+ b.

(** [p] is a prefix of [s], and [rest] is what follows it. *)
Definition prefix_of (p s rest : string) : Prop := s = p +:+ rest.

(** One of the patterns of a group occurs in [s]. *)
Definition group_matches (patterns : list string) (s : string) : Prop :=
  exists p, In p patterns /\ occurs_in p s.

(** [label] is the label of the first group of the table, in table order,
    one of whose patterns occurs in [s]. *)
Definition first_matching_group (table : list (string * list string))
           (s label : string) : Prop :=
  exists before patterns after,
    table = before ++ (label, patterns) :: after /\
    group_matches patterns s /\
    Forall (fun g => ~ group_matches (snd g) s) before.

(** [rest] is [text] without the first phrase of the list, in list order,
    that starts it, trimmed; or [text] itself when no phrase starts it. *)
Definition leading_phrase_removed (phrases : list string)
           (text rest : string) : Prop :=
  (exists before p after tail,
      phrases = before ++ p :: after /\
      prefix_of p text tail /\
      Forall (fun q => forall x, ~ prefix_of q text x) before /\
      rest = Py.strip tail) \/
  (Forall (fun q => forall x, ~ prefix_of q text x) phrases /\ rest = text).

(** The fallback label as the specification words it: the raw message
    with the first leading phrase that starts it (compared without case)
    taken off, and the first character of what remains upper-cased. *)
Fixpoint without_leading_phrase (phrases : list string) (m : string)
  : string :=
  match phrases with
  | [] => m
  | p :: rest =>
      if Py.startswith (Py.lower m) p then Py.drop (String.length p) m
      else without_leading_phrase rest m
  end.

Definition upper_first (s : string) : string :=
  match s with
  | EmptyString => EmptyString
  | String c r => String (Py.upper_char c) r
  end.

Definition claimed_fallback (m : string) : string :=
  upper_first (without_leading_phrase prefixes_to_remove m).

End TextSpec.

Module AudioSpec.
Import AudioConversationService.

(** A stage produced a usable result: it returned, and not [None] nor an
    empty value. *)
Definition usable (o : outcome string) : bool :=
  match o with
  | Returns r => Py.truthy r
  | Raises _ => false
  end.

Definition usable_bytes (o : outcome (list byte)) : bool :=
  match o with
  | Returns r => truthy_bytes r
  | Raises _ => false
  end.

(** The text a stage returned (empty when it returned none). *)
Definition text_of (o : outcome string) : string :=
  match o with
  | Returns (Some s) => s
  | _ => EmptyString
  end.

(** The synthesis stage of the path-based turn gave a path. *)
Definition path_synthesis_ok (svc : Services) (reply : string) : bool :=
  Py.truthy (_generate_audio_response svc reply).

(** All three stages of a turn produced a usable result. *)
Definition bytes_turn_ok (svc : Services) (audio_bytes : list byte)
           (language : string) (h : list Message) : bool :=
  let t := transcribe_audio_from_bytes svc audio_bytes language in
  let g := generate_audio_conversation_response svc (text_of t) h in
  usable t && usable g && usable_bytes (text_to_speech svc (text_of g) None).

Definition path_turn_ok (svc : Services) (audio_file_path language : string)
           (h : list Message) : bool :=
  let t := transcribe_audio svc audio_file_path language in
  let g := generate_audio_conversation_response svc (text_of t) h in
  usable t && usable g && path_synthesis_ok svc (text_of g).

(** The history with one exchange appended and cut to its most recent 20
    entries. *)
Definition with_exchange (h : list Message) (transcript reply : string)
  : list Message :=
  last_entries 20 (h ++ [mkMessage user transcript; mkMessage assistant reply]).

(** Services for the examples: the transcript is "hello", the reply is
    "hi"; the audio comes back from the synthesis call, but with an output
    path the file cannot be written and the adapter returns [None]. *)
Definition services_file_unwritable : Services :=
  mkServices (fun _ _ => Returns (Some "hello"))
             (fun _ _ => Returns (Some "hello"))
             (fun _ _ => Returns (Some "hi"))
             (fun _ output_path =>
                match output_path with
                | Some _ => Returns None
                | None => Returns (Some [x01; x02]%byte)
                end)
             (Returns (Some "/tmp/reply.mp3")).

(** Services whose speech-to-text gives nothing. *)
Definition services_no_transcript : Services :=
  mkServices (fun _ _ => Returns None)
             (fun _ _ => Returns None)
             (fun _ _ => Returns (Some "hi"))
             (fun _ _ => Returns (Some [x01; x02]%byte))
             (Returns (Some "/tmp/reply.mp3")).

(** Services that all work. *)
Definition services_working : Services :=
  mkServices (fun _ _ => Returns (Some "hello"))
             (fun _ _ => Returns (Some "hello"))
             (fun _ _ => Returns (Some "hi"))
             (fun _ _ => Returns (Some [x01; x02]%byte))
             (Returns (Some "/tmp/reply.mp3")).

End AudioSpec.

(* ===================================================================== *)
(** ** conversation_manager.py, the sweeps *)
(* ===================================================================== *)

Module SessionSweep.
Import ConversationManager.

(** Both sweeps read [datetime.utcnow()] anew for every session they
    examine: [clock sid] is the reading made for the session [sid]. *)

(** [get_all_sessions]: the dict of the sessions that are not expired;
    [self.conversations] is not written. *)
Definition get_all_sessions (clock : string -> Z)
           (conversations : gmap string ConversationState)
  : gmap string ConversationState :=
  filter (fun kv => _is_conversation_expired (clock kv.1) kv.2 = false)
         conversations.

(** The list [expired_sessions] built by the first loop of
    [cleanup_expired_sessions]. *)
Definition expired_sessions (clock : string -> Z)
           (conversations : gmap string ConversationState) : list string :=
  (filter (fun kv => _is_conversation_expired (clock kv.1) kv.2 = true)
          (map_to_list conversations)).*1.

(** [cleanup_expired_sessions]: the count returned and
    [self.conversations] after the [del] of every listed id, first listed
    first deleted. *)
Definition cleanup_expired_sessions (clock : string -> Z)
           (conversations : gmap string ConversationState)
  : nat * gmap string ConversationState :=
  let ids := expired_sessions clock conversations in
  (length ids, foldr delete conversations (reverse ids)).

End SessionSweep.

(* ===================================================================== *)
(** ** elevenlabs_service.py *)
(* ===================================================================== *)

(** What [requests.post] does: a response with its status code and body,
    or a raised exception. *)
Inductive HttpReply : Type :=
| Responded (status_code : Z) (content : list byte)
| RequestFailed (e : string).

Module ElevenLabsService.

(** [text_to_speech].  [post voice text] is the request to the
    text-to-speech endpoint of the voice; [write_file path data] tells
    whether the audio file could be written ([false]: [open] or [write]
    raised).  Every exception is caught inside and [None] is returned. *)
Definition text_to_speech (api_key : option string)
           (default_voice_id : string)
           (post : string -> string -> HttpReply)
           (write_file : string -> list byte -> bool)
           (text : string) (voice_id output_path : option string)
  : option (list byte) :=
  if negb (Py.truthy api_key) then None
  else if negb (Py.truthy (Some (Py.strip text))) then None
  else
    let voice_id :=
      if Py.truthy voice_id then default EmptyString voice_id
      else default_voice_id in
    match post voice_id text with
    | Responded status_code content =>
        if status_code =? 200 then
          let audio_data := content in
          if Py.truthy output_path
          then
            if write_file (default EmptyString output_path) audio_data
            then Some audio_data
            else None
          else Some audio_data
        else None
    | RequestFailed _ => None
    end.

(** The adapter as the orchestrator holds it: [text_to_speech(text)] and
    [text_to_speech(text, output_path=...)]. *)
Definition as_service (api_key : option string) (default_voice_id : string)
           (post : string -> string -> HttpReply)
           (write_file : string -> list byte -> bool)
  : string -> option string -> outcome (list byte) :=
  fun text output_path =>
    Returns (text_to_speech api_key default_voice_id post write_file
               text None output_path).

End ElevenLabsService.

(* ===================================================================== *)
(** ** app.py, the chat and reset routes *)
(* ===================================================================== *)

(** The JSON body of a chat request, for bodies whose [message] and
    [session_id], when present, are strings. *)
Inductive ChatRequest : Type :=
| mkChatRequest (message : option string) (session_id : option string).

(** The reply of the chat route: the JSON object of a served turn, or an
    error with its status code. *)
Inductive ChatReply : Type :=
| ChatOk (response : string) (session_id : string) (question_number : Z)
         (is_complete : bool) (timestamp : Z)
| ChatError (status : Z) (error : string).

(** The readings of [datetime.utcnow()] made while a chat request is
    served, in the order they are made. *)
Record ChatClock : Type := mkChatClock {
  at_get : Z;
  at_created : Z;
  at_updated : Z;
  at_update : Z;
  at_reply : Z
}.

Module App.
Import ConversationManager MedicalLogic.

(** [chat]: the reply and [conversation_manager.conversations] after the
    request, once [request.get_json()] has returned [data]; [data] is
    [None] when the body is the JSON value null. *)
Definition chat (data : option ChatRequest) (clock : ChatClock)
           (groq_client : GroqClient)
           (conversations : gmap string ConversationState)
  : ChatReply * gmap string ConversationState :=
  match data with
  | None | Some (mkChatRequest None _) =>
      (ChatError 400 "Message is required", conversations)
  | Some (mkChatRequest (Some message) session_id) =>
      let user_message := Py.strip message in
      let session_id := default "default" session_id in
      match user_message with
      | EmptyString => (ChatError 400 "Message cannot be empty", conversations)
      | _ =>
          let '(state, conversations) :=
            get_conversation session_id (at_get clock) (at_created clock)
                             (at_updated clock) conversations in
          let response := process_message user_message state groq_client in
          let conversations :=
            update_conversation session_id (conversation_state response)
                                (at_update clock) conversations in
          (ChatOk (bot_message response) session_id
                  (question_number (conversation_state response))
                  (is_complete (conversation_state response))
                  (at_reply clock),
           conversations)
      end
  end.

(** The reset route: [None] stands for a request without JSON body, on
    which [data.get] raises and the route answers 500. *)
Definition reset_route (data : option ChatRequest) (t_created t_updated : Z)
           (conversations : gmap string ConversationState)
  : Z * gmap string ConversationState :=
  match data with
  | None => (500, conversations)
  | Some (mkChatRequest _ session_id) =>
      (200, reset_conversation (default "default" session_id)
                               t_created t_updated conversations)
  end.

(** A series of chat requests, each with its clock readings and the
    behaviour of the client while it is served. *)
Fixpoint serve_chats (requests : list (ChatRequest * ChatClock * GroqClient))
         (conversations : gmap string ConversationState)
  : gmap string ConversationState :=
  match requests with
  | [] => conversations
  | (data, clock, groq_client) :: rest =>
      serve_chats rest (snd (chat (Some data) clock groq_client conversations))
  end.

End App.

(* ===================================================================== *)
(** ** Vocabulary of the further statements *)
(* ===================================================================== *)

Module MoreSpec.
Import ConversationManager MedicalLogic.

(** Every occurrence of the character [a] in [s] is directly followed by
    the character [b]. *)
Fixpoint followed_by (a b : ascii) (s : string) : bool :=
  match s with
  | EmptyString => true
  | String c r =>
      (if Ascii.eqb c a
       then match r with
            | String d _ => Ascii.eqb d b
            | EmptyString => false
            end
       else true) && followed_by a b r
  end.

(** The patterns of the symptom table in which an n is followed by
    another letter than o. *)
Definition patterns_with_n : list string :=
  ["migraine"; "burning up"; "coughing"; "nausea"; "nauseous"; "dizziness"].

(** A history made of exchanges: a user entry, then the assistant entry
    that answers it, and so on. *)
Fixpoint exchanges (h : list Message) : Prop :=
  match h with
  | [] => True
  | u :: a :: rest => role u = user /\ role a = assistant /\ exchanges rest
  | _ => False
  end.

(** A chat request for the session [sid] whose message is not blank. *)
Definition request_for (sid : string) (data : ChatRequest) : Prop :=
  match data with
  | mkChatRequest (Some message) session_id =>
      Py.strip message <> EmptyString /\ default "default" session_id = sid
  | _ => False
  end.

(** The requests are all for the session [sid], and each arrives no later
    than 24 hours after the update made by the one before it;
    [last_update] is the time of the update before the first of them. *)
Fixpoint in_time (sid : string) (last_update : Z)
         (requests : list (ChatRequest * ChatClock * GroqClient)) : Prop :=
  match requests with
  | [] => True
  | (data, clock, _) :: rest =>
      request_for sid data /\
      at_get clock <= last_update + timedelta_hours expiry_hours /\
      in_time sid (at_update clock) rest
  end.

End MoreSpec.

(* ===================================================================== *)
(** ** The parts of the code reached by an exception *)
(* ===================================================================== *)

Module ErrorSpec.
Import Flow MedicalLogic.

(** The [try: ... except Exception] of [process_message] around a body:
    the result of the body, or the error response on the dict as the
    body left it. *)
Definition handle_errors (body : M Response) (st : ConversationState)
  : Response :=
  match body st with
  | (Normal r, _) => r
  | (Raised _, st') => _create_error_response st'
  end.

(** The one call to the client that a turn makes, with its arguments. *)
Definition call_of_turn (user_message : string) (st : ConversationState)
           (groq : GroqClient) : outcome string :=
  let message := _normalize_message user_message in
  if question_number st =? 0 then
    generate_follow_up_question groq (_extract_symptom message) 1 []
  else if max_questions <=? question_number st then
    generate_diagnosis groq (initial_symptom st) (answers st ++ [message])
  else
    generate_follow_up_question groq (initial_symptom st)
      (question_number st + 1) (answers st ++ [message]).

(** A client that raises when asked for the first question and answers
    every other call. *)
Definition groq_raising_first_question : GroqClient :=
  mkGroq (fun _ n _ =>
            if n =? 1 then Raises "read timed out"
            else Returns (Some "Since when?"))
         (fun _ _ => Returns (Some "Please rest and see a doctor.")).

(** A body that records an answer and then raises. *)
Definition append_then_raise (x e : string) : M Response :=
  mbind (fun _ : unit => raise e) (modify (append_answer x)).

End ErrorSpec.

(** Audio services of which one stage raises. *)
Module AudioRaising.



End AudioRaising.

(* ===================================================================== *)
(** ** conversation_manager.py, with the exceptions it lets through *)
(* ===================================================================== *)

(** [_is_conversation_expired] catches [KeyError] and [ValueError] only.
    The sum [last_updated + timedelta(hours=24)] raises [OverflowError]
    when it exceeds [datetime.max], and that exception leaves
    [_is_conversation_expired] and [get_conversation].  Here a datetime
    is counted in microseconds from 1970-01-01T00:00:00, and [IsoText t]
    is the text of the naive datetime [t]; the functions of
    [ConversationManager] above are these whenever no overflow occurs
    (texts with a UTC offset are not represented). *)
Module ExpiryCheck.
Import ConversationManager.

(** [datetime.max], 9999-12-31T23:59:59.999999. *)
Definition datetime_max : Z := 253402300799999999.

Definition overflow_error : string := "date value out of range".

(** [_is_conversation_expired]: its value, or the exception that leaves
    it. *)
Definition _is_conversation_expired (now : Z)
           (conversation : ConversationState) : Flow.result bool :=
  match fromisoformat (last_updated conversation) with
  | Some last_updated =>
      if datetime_max <? last_updated + timedelta_hours expiry_hours
      then Flow.Raised overflow_error
      else
        let expiry_time := last_updated + timedelta_hours expiry_hours in
        Flow.Normal (expiry_time <? now)
  | None => Flow.Normal true
  end.

(** [get_conversation]: the state returned or the exception raised, and
    [self.conversations] after the call. *)
Definition get_conversation (session_id : string) (now t_created t_updated : Z)
           (conversations : gmap string ConversationState)
  : Flow.result ConversationState * gmap string ConversationState :=
  match conversations !! session_id with
  | None =>
      let fresh := _create_new_conversation t_created t_updated in
      (Flow.Normal fresh, <[session_id := fresh]> conversations)
  | Some conversation =>
      match _is_conversation_expired now conversation with
      | Flow.Raised e => (Flow.Raised e, conversations)
      | Flow.Normal true =>
          let fresh := _create_new_conversation t_created t_updated in
          (Flow.Normal fresh, <[session_id := fresh]> conversations)
      | Flow.Normal false => (Flow.Normal conversation, conversations)
      end
  end.


End ExpiryCheck.

(* ===================================================================== *)
(** ** app.py, the chat route as a request reaches it *)
(* ===================================================================== *)


Module ChatEndpoint.



End ChatEndpoint.

(* ===================================================================== *)
(** ** The flow engine, turn by turn *)
(* ===================================================================== *)

Module FlowFacts.
Import Flow MedicalLogic FlowSpec.

(** The first turn: the symptom is stored and the counter is set to 1. *)
Lemma process_message_initial (m : string) (st : ConversationState)
      (g : GroqClient) :
  question_number st = 0 ->
  process_message m st g =
    let symptom := _extract_symptom (_normalize_message m) in
    mkResponse (question_text g symptom 1 [])
               (set_question_number 1 (set_initial_symptom symptom st)).
Proof.
  intros H. run_flow. rewrite H. cbn.
  destruct (generate_follow_up_question g _ 1 []) as [[[|c r]|]|e]; reflexivity.
Qed.

(** A follow-up turn below the bound: the answer is stored and the counter
    advances. *)
Lemma process_message_next (m : string) (st : ConversationState)
      (g : GroqClient) :
  question_number st <> 0 ->
  question_number st < max_questions ->
  process_message m st g =
    let st1 := append_answer (_normalize_message m) st in
    let n := question_number st + 1 in
    mkResponse (question_text g (initial_symptom st) n (answers st1))
               (set_question_number n st1).
Proof.
  intros H0 H3. run_flow.
  destruct (Z.eqb_spec (question_number st) 0) as [|_]; [contradiction|].
  destruct (Z.leb_spec max_questions (question_number st)) as [|_]; [lia|].
  cbn.
  destruct (generate_follow_up_question g _ _ _) as [[[|c r]|]|e]; reflexivity.
Qed.

(** A follow-up turn at the bound: the answer is stored, the diagnosis is
    given, the session is complete; the counter is not written. *)
Lemma process_message_diagnosis (m : string) (st : ConversationState)
      (g : GroqClient) :
  max_questions <= question_number st ->
  process_message m st g =
    let st1 := append_answer (_normalize_message m) st in
    mkResponse (diagnosis_text g st1) (set_is_complete true st1).
Proof.
  intros H3. unfold max_questions in H3. run_flow.
  destruct (Z.eqb_spec (question_number st) 0) as [|_]; [lia|].
  destruct (Z.leb_spec max_questions (question_number st)) as [_|];
    [|unfold max_questions in *; lia].
  cbn.
  destruct (generate_diagnosis g _ _) as [[[|c r]|]|e]; reflexivity.
Qed.

(** The body of the [try] ends normally whatever the client does: the
    handler of [process_message] is not reached. *)
Lemma process_message_body_normal (m : string) (st : ConversationState)
      (g : GroqClient) :
  process_message_body m g st =
    (Normal (process_message m st g),
     conversation_state (process_message m st g)).
Proof.
  run_flow.
  destruct (question_number st =? 0); cbn.
  - destruct (generate_follow_up_question g _ 1 []) as [[[|c r]|]|e]; reflexivity.
  - destruct (max_questions <=? question_number st); cbn.
    + destruct (generate_diagnosis g _ _) as [[[|c r]|]|e]; reflexivity.
    + destruct (generate_follow_up_question g _ _ _) as [[[|c r]|]|e]; reflexivity.
Qed.

End FlowFacts.

(* ===================================================================== *)
(** ** Sessions served from a fresh state *)
(* ===================================================================== *)

Module SessionFacts.
Import MedicalLogic FlowSpec FlowFacts.

Lemma after_turns_fresh (t1 t2 : Z) : after_turns 0 (fresh t1 t2).
Proof. repeat split. Qed.

Lemma after_turns_step (k : Z) (st : ConversationState) (m : string)
      (g : GroqClient) :
  0 <= k ->
  after_turns k st ->
  after_turns (k + 1) (conversation_state (process_message m st g)).
Proof.
  unfold after_turns, max_questions. intros Hk (Hq & Ha & Hc).
  destruct (Z.eq_dec k 0) as [->|Hk0].
  - rewrite process_message_initial by (rewrite Hq; reflexivity).
    cbn. rewrite Hc. repeat split. cbn in Ha. lia.
  - destruct (Z_lt_le_dec k 3) as [Hlt|Hge].
    + rewrite process_message_next by (unfold max_questions; lia).
      cbn. rewrite length_app, Hc. cbn.
      repeat split; try lia.
      all: destruct (Z.ltb_spec 3 k), (Z.ltb_spec 3 (k + 1)); try lia; reflexivity.
    + rewrite process_message_diagnosis by (unfold max_questions; lia).
      cbn. rewrite length_app. cbn.
      repeat split; try lia.
      all: destruct (Z.ltb_spec 3 (k + 1)); try lia; reflexivity.
Qed.

Lemma after_turns_run (turns : list (string * GroqClient)) :
  forall (k : Z) (st : ConversationState),
    0 <= k ->
    after_turns k st ->
    after_turns (k + Z.of_nat (length turns)) (process_turns turns st).
Proof.
  induction turns as [|[m g] rest IH]; intros k st Hk Hst.
  - cbn. rewrite Z.add_0_r. exact Hst.
  - cbn [process_turns length].
    replace (k + Z.of_nat (S (length rest)))
      with ((k + 1) + Z.of_nat (length rest)) by lia.
    apply IH; [lia|]. apply after_turns_step; assumption.
Qed.

Lemma after_turns_from_fresh (turns : list (string * GroqClient)) (t1 t2 : Z) :
  after_turns (Z.of_nat (length turns)) (process_turns turns (fresh t1 t2)).
Proof.
  apply (after_turns_run turns 0 (fresh t1 t2)); [lia|apply after_turns_fresh].
Qed.

End SessionFacts.

(* ===================================================================== *)
(** ** The diagnosis turn and the completed session (C1, C3, C4) *)
(* ===================================================================== *)

Module DiagnosisTurn.
Import MedicalLogic FlowSpec FlowFacts SessionFacts.

Lemma third_question_asked_eq :
  third_question_asked =
    mkState 3 false "headache" ["a week"; "it is mild"] (IsoText 0) (IsoText 0).
Proof. vm_compute. reflexivity. Qed.

(** C1, as stated, fails: in the session of the example, with the third
    question asked ([question_number = 3]), the diagnosis turn marks the
    session complete and leaves [question_number] at 3; it is not 4. *)
Lemma diagnosis_turn_counter_not_four :
  question_number third_question_asked = max_questions /\
  is_complete diagnosed = true /\
  question_number diagnosed <> max_questions + 1.
Proof. vm_compute. repeat split; discriminate. Qed.

(** C1 (amended): at [question_number = 3] one more message appends the
    normalized answer, answers with the diagnosis (the generated one, or
    the fallback when the client gives nothing usable), sets
    [is_complete] and leaves [question_number] at 3.  Further messages on
    the resulting state keep it at 3, and in a session served from a fresh
    state [question_number] never exceeds 3. *)
Theorem diagnosis_turn_keeps_counter (m : string) (st : ConversationState)
        (g : GroqClient) :
  question_number st = max_questions ->
  answers (conversation_state (process_message m st g)) =
    answers st ++ [_normalize_message m] /\
  bot_message (process_message m st g) =
    diagnosis_text g (append_answer (_normalize_message m) st) /\
  is_complete (conversation_state (process_message m st g)) = true /\
  question_number (conversation_state (process_message m st g)) =
    max_questions /\
  (forall m2 g2,
      question_number
        (conversation_state
           (process_message m2 (conversation_state (process_message m st g)) g2))
      = max_questions) /\
  (forall turns t1 t2,
      question_number (process_turns turns (fresh t1 t2)) <= max_questions).
Proof.
  intros H.
  rewrite process_message_diagnosis by lia. cbn.
  repeat split; try assumption.
  - intros m2 g2. rewrite process_message_diagnosis by (cbn; lia).
    cbn. assumption.
  - intros turns t1 t2.
    destruct (after_turns_from_fresh turns t1 t2) as (Hq & _).
    rewrite Hq. lia.
Qed.

Lemma diagnosis_turn_keeps_counter_witness :
  answers diagnosed = ["a week"; "it is mild"; "worse at dusk"] /\
  question_number diagnosed = 3.
Proof.
  destruct (diagnosis_turn_keeps_counter "worse at dusk" third_question_asked
              groq_unavailable) as (Ha & _ & _ & Hq & _).
  - vm_compute. reflexivity.
  - split.
    + unfold diagnosed. rewrite Ha. vm_compute. reflexivity.
    + exact Hq.
Defined.

(** C3, as stated, fails: a further message on the completed session of
    the example is processed like an answer, and [answers] grows. *)
Lemma completed_session_answers_change :
  is_complete diagnosed = true /\
  answers (conversation_state
             (process_message "thanks" diagnosed groq_unavailable))
    <> answers diagnosed.
Proof. vm_compute. split; [reflexivity | discriminate]. Qed.

(** C3 (amended): on a completed state of a session served from a fresh
    state, [question_number] is 3, and a further message leaves
    [question_number], [initial_symptom] and [is_complete] unchanged,
    appends the normalized message to [answers] and is answered with a
    diagnosis again; the engine itself never takes the session back to
    [question_number = 0]. *)
Theorem completed_session_turn (turns : list (string * GroqClient))
        (t1 t2 : Z) (m : string) (g : GroqClient) :
  is_complete (process_turns turns (fresh t1 t2)) = true ->
  question_number (process_turns turns (fresh t1 t2)) = max_questions /\
  question_number
    (conversation_state
       (process_message m (process_turns turns (fresh t1 t2)) g))
    = max_questions /\
  initial_symptom
    (conversation_state
       (process_message m (process_turns turns (fresh t1 t2)) g))
    = initial_symptom (process_turns turns (fresh t1 t2)) /\
  is_complete
    (conversation_state
       (process_message m (process_turns turns (fresh t1 t2)) g))
    = true /\
  answers
    (conversation_state
       (process_message m (process_turns turns (fresh t1 t2)) g))
    = answers (process_turns turns (fresh t1 t2)) ++ [_normalize_message m] /\
  bot_message (process_message m (process_turns turns (fresh t1 t2)) g)
    = diagnosis_text g
        (append_answer (_normalize_message m)
                       (process_turns turns (fresh t1 t2))).
Proof.
  intros Hc.
  destruct (after_turns_from_fresh turns t1 t2) as (Hq & _ & Hc').
  set (st := process_turns turns (fresh t1 t2)) in *.
  assert (Hq3 : question_number st = max_questions).
  { rewrite Hc in Hc'. symmetry in Hc'. apply Z.ltb_lt in Hc'.
    rewrite Hq. lia. }
  rewrite process_message_diagnosis by lia. cbn.
  repeat split; assumption.
Qed.

Lemma completed_session_turn_witness :
  question_number
    (conversation_state (process_message "thanks" diagnosed groq_unavailable))
  = 3.
Proof.
  apply (completed_session_turn
           [("I have a headache", groq_unavailable);
            ("a week", groq_unavailable);
            ("it is mild", groq_unavailable);
            ("worse at dusk", groq_unavailable)] 0 0 "thanks" groq_unavailable).
  vm_compute. reflexivity.
Defined.

(** C4, as stated, fails: after the diagnosis turn of the example the
    session is in the follow-up phase with three answers and
    [question_number = 3], so [len(answers)] is not [question_number - 1]. *)
Lemma answers_invariant_broken_by_diagnosis :
  1 <= question_number diagnosed /\
  Z.of_nat (length (answers diagnosed)) <> question_number diagnosed - 1.
Proof. vm_compute. split; discriminate. Qed.

(** C4 (amended): after [k] turns of a session served from a fresh state,
    [question_number = min k 3], [len(answers)] is the number of follow-up
    turns processed ([k - 1] once [k >= 1]) and [is_complete] tells
    whether the diagnosis turn has been passed; hence
    [len(answers) = question_number - 1] holds in the follow-up phase as
    long as the session is not complete. *)
Theorem answers_count_follow_up_turns (turns : list (string * GroqClient))
        (t1 t2 : Z) :
  question_number (process_turns turns (fresh t1 t2))
    = Z.min (Z.of_nat (length turns)) 3 /\
  Z.of_nat (length (answers (process_turns turns (fresh t1 t2))))
    = Z.max 0 (Z.of_nat (length turns) - 1) /\
  is_complete (process_turns turns (fresh t1 t2))
    = (3 <? Z.of_nat (length turns)) /\
  (is_complete (process_turns turns (fresh t1 t2)) = false ->
   1 <= question_number (process_turns turns (fresh t1 t2)) ->
   Z.of_nat (length (answers (process_turns turns (fresh t1 t2))))
     = question_number (process_turns turns (fresh t1 t2)) - 1).
Proof.
  destruct (after_turns_from_fresh turns t1 t2) as (Hq & Ha & Hc).
  unfold max_questions in *.
  repeat split; try assumption.
  intros Hf H1. rewrite Hf in Hc. symmetry in Hc. apply Z.ltb_ge in Hc.
  lia.
Qed.

Lemma answers_count_follow_up_turns_witness :
  Z.of_nat (length (answers third_question_asked))
    = question_number third_question_asked - 1.
Proof.
  apply (answers_count_follow_up_turns
           [("I have a headache", groq_unavailable);
            ("a week", groq_unavailable);
            ("it is mild", groq_unavailable)] 0 0).
  - vm_compute. reflexivity.
  - vm_compute. discriminate.
Defined.

End DiagnosisTurn.

(* ===================================================================== *)
(** ** Exceptions inside [process_message] (C2) *)
(* ===================================================================== *)

Module ErrorHandling.
Import Flow MedicalLogic FlowSpec FlowFacts ErrorSpec.

Lemma fallback_question_not_apology (s : string) (n : Z) :
  _get_fallback_question s n <> error_message.
Proof.
  unfold _get_fallback_question.
  destruct (n =? 1); [discriminate|].
  destruct (n =? 2); [discriminate|].
  destruct (n =? 3); discriminate.
Qed.

Lemma fallback_diagnosis_not_apology (st : ConversationState) :
  _get_fallback_diagnosis st <> error_message.
Proof. unfold _get_fallback_diagnosis. discriminate. Qed.

Lemma append_answer_changes (x : string) (st st' : ConversationState) :
  answers st' = answers st ++ [x] -> st' <> st.
Proof.
  intros H E. subst st'. apply (f_equal (@length string)) in H.
  rewrite length_app in H. cbn in H. lia.
Qed.

(** When the call of the turn raises, the turn is the fallback turn. *)
Lemma raising_call_falls_back (m : string) (st : ConversationState)
      (g : GroqClient) (e : string) :
  call_of_turn m st g = Raises e ->
  process_message m st g = fallback_turn m st.
Proof.
  unfold call_of_turn, fallback_turn. intros H.
  destruct (Z.eqb_spec (question_number st) 0) as [H0|H0].
  - rewrite process_message_initial by exact H0. cbn zeta.
    unfold question_text. rewrite H. reflexivity.
  - destruct (Z.leb_spec max_questions (question_number st)) as [H3|H3].
    + rewrite process_message_diagnosis by exact H3. cbn zeta.
      unfold diagnosis_text. cbn [append_answer initial_symptom answers].
      rewrite H. reflexivity.
    + rewrite process_message_next by assumption. cbn zeta.
      unfold question_text. cbn [append_answer initial_symptom answers].
      rewrite H. reflexivity.
Qed.

(** The fallback turn never answers with the apology and always writes
    the state. *)
Lemma fallback_turn_is_a_turn (m : string) (st : ConversationState) :
  bot_message (fallback_turn m st) <> error_message /\
  conversation_state (fallback_turn m st) <> st.
Proof.
  unfold fallback_turn.
  destruct (Z.eqb_spec (question_number st) 0) as [H0|H0];
    cbn [bot_message conversation_state].
  - split; [apply fallback_question_not_apology|].
    intros E. apply (f_equal question_number) in E. cbn in E. lia.
  - destruct (max_questions <=? question_number st);
      cbn [bot_message conversation_state].
    + split; [apply fallback_diagnosis_not_apology|].
      apply (append_answer_changes (_normalize_message m)). reflexivity.
    + split; [apply fallback_question_not_apology|].
      apply (append_answer_changes (_normalize_message m)). reflexivity.
Qed.

(** C2, as stated, fails: with a client that raises during generation,
    the first turn on a fresh state is answered with the fallback
    question, not with the apology, and [question_number] has advanced. *)
Lemma generation_exception_does_not_drop_turn :
  generate_follow_up_question groq_raising "Itch" 1 []
    = Raises "connection reset" /\
  _extract_symptom (_normalize_message "itch") = "Itch" /\
  process_message "itch" (fresh 0 0) groq_raising
    <> _create_error_response (fresh 0 0) /\
  question_number
    (conversation_state (process_message "itch" (fresh 0 0) groq_raising))
    <> question_number (fresh 0 0).
Proof. vm_compute. repeat split; discriminate. Qed.

(** C2 (amended): for every message, every well-formed state and every
    client, (1) the body of the [try] of [process_message] ends normally,
    whatever the client returns or raises, so the call returns the result
    of the flow and the top-level handler is not reached; (2) when the
    call to the client made in this turn raises, the exception is caught
    in the generation helper and the static fallback is used: the turn
    goes on as usual (first turn: symptom stored and counter set to 1;
    later turns: answer recorded, counter advanced or session completed),
    the reply is not the apology and the state is not the incoming one;
    (3) [process_message] is its body under the top-level handler, and
    for any body that raises the handler answers with the fixed apology
    and the state as the body left it, without rolling back: the
    incoming state if the body raised before its first write, a modified
    one otherwise (a body that records an answer and then raises returns
    the state with that answer). *)
Theorem client_exception_falls_back (m : string) (st : ConversationState)
        (g : GroqClient) :
  process_message_body m g st
    = (Normal (process_message m st g),
       conversation_state (process_message m st g)) /\
  (forall e,
      call_of_turn m st g = Raises e ->
      process_message m st g = fallback_turn m st /\
      bot_message (process_message m st g) <> error_message /\
      conversation_state (process_message m st g) <> st) /\
  process_message m st g = handle_errors (process_message_body m g) st /\
  (forall (body : M Response) st0 e st1,
      body st0 = (Raised e, st1) ->
      handle_errors body st0 = mkResponse error_message st1) /\
  (forall e st0, handle_errors (raise e) st0 = mkResponse error_message st0) /\
  (forall x e st0,
      handle_errors (append_then_raise x e) st0
        = mkResponse error_message (append_answer x st0)).
Proof.
  split; [apply process_message_body_normal|].
  split.
  { intros e He. rewrite (raising_call_falls_back m st g e He).
    split; [reflexivity|]. apply fallback_turn_is_a_turn. }
  split; [reflexivity|].
  split.
  { intros body st0 e st1 Hb. unfold handle_errors. rewrite Hb. reflexivity. }
  split; reflexivity.
Qed.

Lemma client_exception_falls_back_witness :
  generate_diagnosis groq_raising_first_question "Itch" ["a week"]
    = Returns (Some "Please rest and see a doctor.") /\
  process_message "itch" (fresh 0 0) groq_raising_first_question
    = fallback_turn "itch" (fresh 0 0).
Proof.
  split; [reflexivity|].
  destruct (client_exception_falls_back "itch" (fresh 0 0)
              groq_raising_first_question) as (_ & H & _).
  apply (H "read timed out"). vm_compute. reflexivity.
Defined.

End ErrorHandling.

(* ===================================================================== *)
(** ** The audio turn (C7, C8, C10) *)
(* ===================================================================== *)

Module AudioFacts.
Import AudioConversationService AudioSpec.

Lemma last_entries_short (n : nat) (l : list Message) :
  (length l <= n)%nat -> last_entries n l = l.
Proof.
  intros H. unfold last_entries.
  replace (length l - n)%nat with 0%nat by lia. reflexivity.
Qed.

Lemma last_entries_length (n : nat) (l : list Message) :
  length (last_entries n l) = Nat.min n (length l).
Proof. unfold last_entries. rewrite length_skipn. lia. Qed.

(** The update is the append of the exchange followed by the cut. *)
Lemma update_is_with_exchange (t r : string) (h : list Message) :
  _update_conversation_history t r h = with_exchange h t r.
Proof.
  unfold _update_conversation_history, with_exchange.
  rewrite <- app_assoc. cbn [app].
  destruct (Nat.ltb_spec 20 (length (h ++ [mkMessage user t; mkMessage assistant r])))
    as [Hlt|Hle].
  - reflexivity.
  - symmetry. apply last_entries_short. exact Hle.
Qed.

Lemma with_exchange_length (h : list Message) (t r : string) :
  (length (with_exchange h t r) <= 20)%nat.
Proof. unfold with_exchange. rewrite last_entries_length. lia. Qed.

(** What the bytes-based turn does to the history. *)
Lemma bytes_turn_history (svc : Services) (b : list byte) (l : string)
      (h : list Message) :
  snd (process_audio_conversation_from_bytes svc b l h) =
    if bytes_turn_ok svc b l h
    then with_exchange h (text_of (transcribe_audio_from_bytes svc b l))
           (text_of (generate_audio_conversation_response svc
                       (text_of (transcribe_audio_from_bytes svc b l)) h))
    else h.
Proof.
  unfold process_audio_conversation_from_bytes, bytes_turn_ok.
  destruct (transcribe_audio_from_bytes svc b l) as [[[|c t]|]|e];
    try reflexivity.
  cbn.
  destruct (generate_audio_conversation_response svc (String c t) h)
    as [[[|c' r]|]|e]; try reflexivity.
  cbn.
  destruct (text_to_speech svc (String c' r) None) as [[[|x a]|]|e];
    try reflexivity.
  cbn. apply update_is_with_exchange.
Qed.

Lemma bytes_turn_success (svc : Services) (b : list byte) (l : string)
      (h : list Message) :
  success (fst (process_audio_conversation_from_bytes svc b l h)) =
    bytes_turn_ok svc b l h.
Proof.
  unfold process_audio_conversation_from_bytes, bytes_turn_ok.
  destruct (transcribe_audio_from_bytes svc b l) as [[[|c t]|]|e];
    try reflexivity.
  cbn.
  destruct (generate_audio_conversation_response svc (String c t) h)
    as [[[|c' r]|]|e]; try reflexivity.
  cbn.
  destruct (text_to_speech svc (String c' r) None) as [[[|x a]|]|e];
    reflexivity.
Qed.

(** What the path-based turn does to the history. *)
Lemma path_turn_history (svc : Services) (p l : string) (h : list Message) :
  snd (process_audio_conversation svc p l h) =
    if path_turn_ok svc p l h
    then with_exchange h (text_of (transcribe_audio svc p l))
           (text_of (generate_audio_conversation_response svc
                       (text_of (transcribe_audio svc p l)) h))
    else h.
Proof.
  unfold process_audio_conversation, path_turn_ok, path_synthesis_ok.
  destruct (transcribe_audio svc p l) as [[[|c t]|]|e]; try reflexivity.
  cbn.
  destruct (generate_audio_conversation_response svc (String c t) h)
    as [[[|c' r]|]|e]; try reflexivity.
  cbn.
  destruct (_generate_audio_response svc (String c' r)) as [[|x a]|];
    try reflexivity.
  cbn. apply update_is_with_exchange.
Qed.

Lemma path_turn_success (svc : Services) (p l : string) (h : list Message) :
  success (fst (process_audio_conversation svc p l h)) =
    path_turn_ok svc p l h.
Proof.
  unfold process_audio_conversation, path_turn_ok, path_synthesis_ok.
  destruct (transcribe_audio svc p l) as [[[|c t]|]|e]; try reflexivity.
  cbn.
  destruct (generate_audio_conversation_response svc (String c t) h)
    as [[[|c' r]|]|e]; try reflexivity.
  cbn.
  destruct (_generate_audio_response svc (String c' r)) as [[|x a]|];
    reflexivity.
Qed.

(** A stage that raises is reported by the handler of the turn: the
    error text carries the exception, and what was obtained before it is
    kept. *)
Lemma bytes_turn_transcription_raises (svc : Services) (b : list byte)
      (l : string) (h : list Message) (e : string) :
  transcribe_audio_from_bytes svc b l = Raises e ->
  process_audio_conversation_from_bytes svc b l h =
    (mkAudioResult false EmptyString EmptyString []
                   ("Processing error: " +:+ e), h).
Proof.
  intros H. unfold process_audio_conversation_from_bytes. rewrite H.
  reflexivity.
Qed.

Lemma history_after_bounded (svc : Services) (t : Turn) (h : list Message) :
  (length h <= 20)%nat -> (length (history_after svc t h) <= 20)%nat.
Proof.
  intros Hh. destruct t as [p l|b l]; cbn [history_after].
  - rewrite path_turn_history.
    destruct (path_turn_ok svc p l h); [apply with_exchange_length|exact Hh].
  - rewrite bytes_turn_history.
    destruct (bytes_turn_ok svc b l h); [apply with_exchange_length|exact Hh].
Qed.

Lemma serve_bounded (turns : list (Services * Turn)) :
  forall h, (length h <= 20)%nat -> (length (serve turns h) <= 20)%nat.
Proof.
  induction turns as [|[svc t] rest IH]; intros h Hh; cbn [serve].
  - exact Hh.
  - apply IH. apply history_after_bounded. exact Hh.
Qed.

End AudioFacts.

Module AudioTurn.
Import AudioConversationService AudioSpec AudioFacts.

(** C7: starting from the empty history of [__init__], after any series
    of audio turns (of either call shape, whatever the services do) the
    history has at most 20 entries; a turn in which some stage gives no
    usable result leaves the history as it was, and a turn in which all
    three do leaves it with the pair (user: transcript, assistant: reply)
    appended and then cut to its most recent 20 entries. *)
Theorem history_capped_and_all_or_nothing
        (turns : list (Services * Turn)) (svc : Services)
        (p : string) (b : list byte) (l : string) (h : list Message) :
  (length (serve turns []) <= 20)%nat /\
  (bytes_turn_ok svc b l h = false ->
   snd (process_audio_conversation_from_bytes svc b l h) = h) /\
  (bytes_turn_ok svc b l h = true ->
   snd (process_audio_conversation_from_bytes svc b l h) =
     with_exchange h
       (transcribed_text (fst (process_audio_conversation_from_bytes svc b l h)))
       (ai_response (fst (process_audio_conversation_from_bytes svc b l h)))) /\
  (path_turn_ok svc p l h = false ->
   snd (process_audio_conversation svc p l h) = h) /\
  (path_turn_ok svc p l h = true ->
   snd (process_audio_conversation svc p l h) =
     with_exchange h
       (transcribed_text (fst (process_audio_conversation svc p l h)))
       (ai_response (fst (process_audio_conversation svc p l h)))).
Proof.
  split; [apply serve_bounded; cbn; lia|].
  split; [intros H; rewrite bytes_turn_history, H; reflexivity|].
  split.
  { intros H. unfold process_audio_conversation_from_bytes, bytes_turn_ok in *.
    destruct (transcribe_audio_from_bytes svc b l) as [[[|c t]|]|e];
      try discriminate H.
    cbn in *.
    destruct (generate_audio_conversation_response svc (String c t) h)
      as [[[|c' r]|]|e]; try discriminate H.
    cbn in *.
    destruct (text_to_speech svc (String c' r) None) as [[[|x a]|]|e];
      try discriminate H.
    cbn. apply update_is_with_exchange. }
  split; [intros H; rewrite path_turn_history, H; reflexivity|].
  intros H. unfold process_audio_conversation, path_turn_ok,
              path_synthesis_ok in *.
  destruct (transcribe_audio svc p l) as [[[|c t]|]|e]; try discriminate H.
  cbn in *.
  destruct (generate_audio_conversation_response svc (String c t) h)
    as [[[|c' r]|]|e]; try discriminate H.
  cbn in *.
  destruct (_generate_audio_response svc (String c' r)) as [[|x a]|];
    try discriminate H.
  cbn. apply update_is_with_exchange.
Qed.

Lemma history_capped_and_all_or_nothing_witness :
  snd (process_audio_conversation_from_bytes services_no_transcript
         [x00%byte] "en-US" [mkMessage user "a"; mkMessage assistant "b"])
    = [mkMessage user "a"; mkMessage assistant "b"] /\
  snd (process_audio_conversation_from_bytes services_working
         [x00%byte] "en-US" [])
    = [mkMessage user "hello"; mkMessage assistant "hi"].
Proof.
  split.
  - apply (history_capped_and_all_or_nothing [] services_no_transcript
             "in.m4a" [x00%byte] "en-US"
             [mkMessage user "a"; mkMessage assistant "b"]).
    vm_compute. reflexivity.
  - destruct (history_capped_and_all_or_nothing [] services_working
                "in.m4a" [x00%byte] "en-US" []) as (_ & _ & H & _).
    rewrite H by (vm_compute; reflexivity). vm_compute. reflexivity.
Defined.




(** C10, as stated, fails: with the same transcript ("hello") and the
    same reply ("hi") in both call shapes, the path-based turn fails at
    synthesis when the audio file cannot be written and appends nothing,
    while the bytes-based turn succeeds and appends the exchange. *)
Lemma transports_differ_in_history :
  transcribe_audio services_file_unwritable "in.m4a" "en-US"
    = transcribe_audio_from_bytes services_file_unwritable [x00%byte] "en-US" /\
  snd (process_audio_conversation services_file_unwritable
         "in.m4a" "en-US" [])
    <> snd (process_audio_conversation_from_bytes services_file_unwritable
              [x00%byte] "en-US" []).
Proof. vm_compute. split; [reflexivity | discriminate]. Qed.

(** C10 (amended): when transcription gives the same result to both call
    shapes and response generation behaves alike, the two turns return
    the same [transcribed_text] and [ai_response]; they make the same
    update to the history whenever they agree on success, that is,
    whenever synthesis succeeds in both or fails in both. *)
Theorem transports_agree (svc1 svc2 : Services) (p l1 : string)
        (b : list byte) (l2 : string) (h : list Message) :
  transcribe_audio svc1 p l1 = transcribe_audio_from_bytes svc2 b l2 ->
  (forall t, generate_audio_conversation_response svc1 t h
             = generate_audio_conversation_response svc2 t h) ->
  transcribed_text (fst (process_audio_conversation svc1 p l1 h))
    = transcribed_text (fst (process_audio_conversation_from_bytes svc2 b l2 h)) /\
  ai_response (fst (process_audio_conversation svc1 p l1 h))
    = ai_response (fst (process_audio_conversation_from_bytes svc2 b l2 h)) /\
  (success (fst (process_audio_conversation svc1 p l1 h))
     = success (fst (process_audio_conversation_from_bytes svc2 b l2 h)) ->
   snd (process_audio_conversation svc1 p l1 h)
     = snd (process_audio_conversation_from_bytes svc2 b l2 h)).
Proof.
  intros Ht Hg.
  unfold process_audio_conversation, process_audio_conversation_from_bytes.
  rewrite Ht.
  destruct (transcribe_audio_from_bytes svc2 b l2) as [[[|c t]|]|e]; cbn;
    try (repeat split; reflexivity).
  rewrite Hg.
  destruct (generate_audio_conversation_response svc2 (String c t) h)
    as [[[|c' r]|]|e]; cbn; try (repeat split; reflexivity).
  destruct (_generate_audio_response svc1 (String c' r)) as [[|y q]|];
    destruct (text_to_speech svc2 (String c' r) None) as [[[|x a]|]|e];
    cbn; repeat split; intros; try reflexivity; discriminate.
Qed.

Lemma transports_agree_witness :
  snd (process_audio_conversation services_working "in.m4a" "en-US" [])
    = snd (process_audio_conversation_from_bytes services_working
             [x00%byte] "en-US" []).
Proof.
  destruct (transports_agree services_working services_working
              "in.m4a" "en-US" [x00%byte] "en-US" []) as (_ & _ & H).
  - vm_compute. reflexivity.
  - intros t. reflexivity.
  - apply H. vm_compute. reflexivity.
Defined.

End AudioTurn.

(* ===================================================================== *)
(** ** Session expiry (C9) *)
(* ===================================================================== *)

Module SessionStore.
Import ConversationManager.


(** The state returned by [get_conversation] is the one stored under the
    session id afterwards, and the other sessions are untouched. *)
Lemma get_conversation_stored (sid : string) (now t1 t2 : Z)
      (convs : gmap string ConversationState) :
  snd (get_conversation sid now t1 t2 convs) !! sid
    = Some (fst (get_conversation sid now t1 t2 convs)) /\
  (forall other, other <> sid ->
     snd (get_conversation sid now t1 t2 convs) !! other = convs !! other).
Proof.
  unfold get_conversation.
  destruct (convs !! sid) as [old|] eqn:Hl.
  - destruct (_is_conversation_expired now old); cbn.
    + split; [apply lookup_insert_eq|].
      intros other Hne. apply lookup_insert_ne. congruence.
    + split; [exact Hl|reflexivity].
  - cbn. split; [apply lookup_insert_eq|].
    intros other Hne. apply lookup_insert_ne. congruence.
Qed.







End SessionStore.

(* ===================================================================== *)
(** ** Whitespace normalization *)
(* ===================================================================== *)

Module WhitespaceFacts.
Import MedicalLogic TextSpec.

Lemma append_cons (c : ascii) (a b : string) :
  String c a +:+ b = String c (a +:+ b).
Proof. reflexivity. Qed.

Lemma append_empty_r (a : string) : a +:+ EmptyString = a.
Proof. induction a as [|c a IH]; [reflexivity|]. rewrite append_cons, IH. reflexivity. Qed.

Lemma append_assoc (a b c : string) : (a +:+ b) +:+ c = a +:+ (b +:+ c).
Proof.
  induction a as [|x a IH]; [reflexivity|].
  rewrite !append_cons, IH. reflexivity.
Qed.

Lemma join_cons_char (c : ascii) (w : string) (ws : list string) :
  Py.join " " (String c w :: ws) = String c (Py.join " " (w :: ws)).
Proof. destruct ws; reflexivity. Qed.

Lemma rstrip_fixed_tail (c : ascii) (r : string) :
  Py.rstrip (String c r) = String c r -> Py.rstrip r = r.
Proof.
  cbn. destruct (Py.rstrip r) as [|d r'] eqn:E.
  - destruct (Py.isspace c); [discriminate|].
    intros H. inversion H. reflexivity.
  - intros H. inversion H. reflexivity.
Qed.

Lemma rstrip_fixed_single (c : ascii) :
  Py.rstrip (String c EmptyString) = String c EmptyString ->
  Py.isspace c = false.
Proof. cbn. destruct (Py.isspace c); [discriminate|reflexivity]. Qed.

Lemma words_head (d : ascii) (r : string) :
  Py.isspace d = false -> words (String d r) <> [].
Proof.
  intros H. cbn. rewrite H.
  destruct r as [|e r]; [discriminate|].
  destruct (Py.isspace e); [discriminate|].
  destruct (words (String e r)); discriminate.
Qed.

Lemma words_cons_cons (c d : ascii) (r : string) :
  words (String c (String d r)) =
    if Py.isspace c then words (String d r)
    else if Py.isspace d then String c EmptyString :: words (String d r)
         else match words (String d r) with
              | w :: ws => String c w :: ws
              | [] => [String c EmptyString]
              end.
Proof. reflexivity. Qed.

Lemma rstrip_fixed_words (r : string) :
  Py.rstrip r = r -> r <> EmptyString -> words r <> [].
Proof.
  induction r as [|d r IH]; intros Hf Hne; [contradiction|].
  destruct (Py.isspace d) eqn:Hd.
  - assert (Hr := rstrip_fixed_tail d r Hf).
    cbn [words]. rewrite Hd. apply IH; [exact Hr|].
    intros ->. cbn in Hf. rewrite Hd in Hf. discriminate.
  - apply words_head. exact Hd.
Qed.

(** On a text without trailing whitespace, the substitution gives the
    words joined by single spaces: whatever the text starts with when the
    scan is inside a run, and for a text that does not start with
    whitespace when it is not. *)
Lemma sub_spaces_words (u : string) :
  Py.rstrip u = u ->
  Py.sub_spaces true u = Py.join " " (words u) /\
  (forall c r, u = String c r -> Py.isspace c = false ->
               Py.sub_spaces false u = Py.join " " (words u)).
Proof.
  induction u as [|c r IH]; intros Hf.
  - split; [reflexivity|]. intros c r H. discriminate.
  - assert (Hr := rstrip_fixed_tail c r Hf).
    destruct (IH Hr) as [IH1 IH2].
    assert (Hns : Py.isspace c = false ->
                  String c (Py.sub_spaces false r)
                  = Py.join " " (words (String c r))).
    { intros Hc. cbn [words]. rewrite Hc.
      destruct r as [|d r']; [reflexivity|].
      destruct (Py.isspace d) eqn:Hd.
      - cbn [Py.sub_spaces]. rewrite Hd.
        assert (Hw : words (String d r') <> [])
          by (apply rstrip_fixed_words; [exact Hr|discriminate]).
        cbn [Py.sub_spaces] in IH1. rewrite Hd in IH1. rewrite IH1.
        destruct (words (String d r')) as [|w ws]; [contradiction|].
        reflexivity.
      - rewrite (IH2 d r' eq_refl Hd).
        assert (Hw : words (String d r') <> []) by (apply words_head; exact Hd).
        destruct (words (String d r')) as [|w ws]; [contradiction|].
        rewrite join_cons_char. reflexivity. }
    split.
    + cbn [Py.sub_spaces]. destruct (Py.isspace c) eqn:Hc.
      * rewrite IH1. cbn [words]. rewrite Hc. reflexivity.
      * apply Hns. reflexivity.
    + intros c' r' H Hc. inversion H; subst.
      cbn [Py.sub_spaces]. rewrite Hc. apply Hns. exact Hc.
Qed.

Lemma lstrip_head (s : string) (c : ascii) (r : string) :
  Py.lstrip s = String c r -> Py.isspace c = false.
Proof.
  induction s as [|d s IH]; cbn; [discriminate|].
  destruct (Py.isspace d) eqn:Hd; [exact IH|].
  intros H. inversion H; subst. exact Hd.
Qed.

Lemma words_lstrip (s : string) : words (Py.lstrip s) = words s.
Proof.
  induction s as [|d s IH]; [reflexivity|].
  cbn [Py.lstrip]. destruct (Py.isspace d) eqn:Hd; [|reflexivity].
  rewrite IH. cbn [words]. rewrite Hd. reflexivity.
Qed.

Lemma rstrip_head (x : string) (c : ascii) (r : string) :
  Py.rstrip x = String c r -> exists r', x = String c r'.
Proof.
  destruct x as [|d x]; cbn; [discriminate|].
  destruct (Py.rstrip x); [destruct (Py.isspace d)|];
    intros H; inversion H; subst; eexists; reflexivity.
Qed.

Lemma rstrip_empty (x : string) :
  Py.rstrip x = EmptyString ->
  words x = [] /\ (forall c r, x = String c r -> Py.isspace c = true).
Proof.
  induction x as [|d x IH]; cbn [Py.rstrip].
  - intros _. split; [reflexivity|]. intros c r H. discriminate.
  - destruct (Py.rstrip x) eqn:E; [|discriminate].
    destruct (Py.isspace d) eqn:Hd; [|discriminate].
    intros _. destruct (IH eq_refl) as [Hw _]. split.
    + cbn [words]. rewrite Hd. exact Hw.
    + intros c r H. inversion H; subst. exact Hd.
Qed.

Lemma words_rstrip (x : string) : words (Py.rstrip x) = words x.
Proof.
  induction x as [|c x IH]; [reflexivity|].
  cbn [Py.rstrip]. destruct (Py.rstrip x) as [|d' x''] eqn:E.
  - destruct (rstrip_empty x E) as [Hw Hsp].
    destruct (Py.isspace c) eqn:Hc.
    + cbn [words]. rewrite Hc, Hw. reflexivity.
    + cbn [words]. rewrite Hc. destruct x as [|d x']; [reflexivity|].
      rewrite (Hsp d x' eq_refl), Hw. reflexivity.
  - destruct (rstrip_head x d' x'' E) as [x' ->].
    rewrite (words_cons_cons c d' x''), (words_cons_cons c d' x'), IH.
    reflexivity.
Qed.

Lemma rstrip_idempotent (x : string) : Py.rstrip (Py.rstrip x) = Py.rstrip x.
Proof.
  induction x as [|c x IH]; [reflexivity|].
  cbn [Py.rstrip]. destruct (Py.rstrip x) as [|d y] eqn:E.
  - destruct (Py.isspace c) eqn:Hc; [reflexivity|]. cbn. rewrite Hc. reflexivity.
  - cbn [Py.rstrip]. cbn [Py.rstrip] in IH.
    destruct (Py.rstrip y) as [|e z] eqn:E2.
    + destruct (Py.isspace d); [discriminate|].
      inversion IH; subst. reflexivity.
    + inversion IH; subst. reflexivity.
Qed.

(** The first statement of [_normalize_message] does what the
    specification says of the normalization: whitespace runs collapsed to
    single spaces, ends trimmed. *)
Lemma collapse_whitespace_normalizes (m : string) :
  collapse_whitespace m = whitespace_normalized m.
Proof.
  unfold collapse_whitespace, whitespace_normalized, Py.strip.
  rewrite <- (words_lstrip m), <- (words_rstrip (Py.lstrip m)).
  destruct (sub_spaces_words (Py.rstrip (Py.lstrip m))
              (rstrip_idempotent _)) as [_ H].
  destruct (Py.rstrip (Py.lstrip m)) as [|c r] eqn:E; [reflexivity|].
  apply (H c r eq_refl).
  destruct (rstrip_head _ _ _ E) as [r' E'].
  apply (lstrip_head m c r' E').
Qed.

End WhitespaceFacts.

(* ===================================================================== *)
(** ** The replacements of [_normalize_message] (C5) *)
(* ===================================================================== *)

Module Normalization.
Import MedicalLogic TextSpec WhitespaceFacts.

Lemma startswith_drop (p s : string) :
  Py.startswith s p = true -> s = p +:+ Py.drop (String.length p) s.
Proof.
  revert s. induction p as [|a p IH]; intros s H; [reflexivity|].
  destruct s as [|b s]; [discriminate|].
  cbn in H. apply andb_true_iff in H. destruct H as [Hab Hp].
  apply Ascii.eqb_eq in Hab. subst b.
  cbn [String.length Py.drop]. rewrite append_cons. f_equal. apply IH. exact Hp.
Qed.

(** Replacing a text by itself changes nothing. *)
Lemma replace_from_same (old : string) :
  old <> EmptyString ->
  forall s k, Py.replace_from old old k s = Py.drop k s.
Proof.
  intros Hne. induction s as [|c r IH]; intros k.
  - destruct k; reflexivity.
  - cbn [Py.replace_from]. destruct k as [|k]; [|apply IH].
    destruct (Py.startswith (String c r) old) eqn:Hs.
    + rewrite IH. cbn [Py.drop].
      etransitivity; [|symmetry; apply (startswith_drop old _ Hs)].
      destruct old as [|a old']; [contradiction|].
      cbn [String.length Py.drop].
      replace (S (String.length old') - 1)%nat with (String.length old')
        by lia.
      reflexivity.
    + rewrite IH. reflexivity.
Qed.

Lemma replace_same (old s : string) :
  old <> EmptyString -> Py.replace old old s = s.
Proof. intros H. unfold Py.replace. rewrite replace_from_same by exact H. reflexivity. Qed.

(** Replacing a character that does not occur changes nothing. *)
Lemma replace_absent_char (c : ascii) (new s : string) :
  free_of c s = true -> Py.replace (String c EmptyString) new s = s.
Proof.
  unfold Py.replace. induction s as [|d r IH]; intros H; [reflexivity|].
  cbn in H. apply andb_true_iff in H. destruct H as [Hcd Hr].
  cbn [Py.replace_from Py.startswith].
  apply negb_true_iff in Hcd. rewrite Hcd. cbn. rewrite (IH Hr). reflexivity.
Qed.

Lemma free_of_lstrip (c : ascii) (s : string) :
  free_of c s = true -> free_of c (Py.lstrip s) = true.
Proof.
  induction s as [|d r IH]; intros H; [reflexivity|].
  cbn [Py.lstrip]. destruct (Py.isspace d); [|exact H].
  cbn in H. apply andb_true_iff in H. apply IH, H.
Qed.

Lemma free_of_rstrip (c : ascii) (s : string) :
  free_of c s = true -> free_of c (Py.rstrip s) = true.
Proof.
  induction s as [|d r IH]; intros H; [reflexivity|].
  cbn in H. apply andb_true_iff in H. destruct H as [Hd Hr].
  cbn [Py.rstrip]. specialize (IH Hr).
  destruct (Py.rstrip r) as [|e r'].
  - destruct (Py.isspace d); [reflexivity|]. cbn. rewrite Hd. reflexivity.
  - cbn [free_of]. rewrite Hd. exact IH.
Qed.

Lemma free_of_sub_spaces (c : ascii) (s : string) :
  Ascii.eqb c " " = false ->
  free_of c s = true ->
  forall b, free_of c (Py.sub_spaces b s) = true.
Proof.
  intros Hsp. induction s as [|d r IH]; intros H b; [reflexivity|].
  cbn in H. apply andb_true_iff in H. destruct H as [Hd Hr].
  cbn [Py.sub_spaces]. destruct (Py.isspace d).
  - destruct b; [apply IH; exact Hr|].
    cbn [free_of]. rewrite Hsp. cbn. apply IH. exact Hr.
  - cbn [free_of]. rewrite Hd. cbn. apply IH. exact Hr.
Qed.

Lemma free_of_collapse (c : ascii) (m : string) :
  Ascii.eqb c " " = false ->
  free_of c m = true -> free_of c (collapse_whitespace m) = true.
Proof.
  intros Hsp H. unfold collapse_whitespace, Py.strip.
  apply free_of_sub_spaces; [exact Hsp|].
  apply free_of_rstrip, free_of_lstrip, H.
Qed.

(** The first pair of replacements (yes by yes, no by no) changes no
    message. *)
Lemma identical_replacements (s : string) :
  Py.replace "no" "no" (Py.replace "yes" "yes" s) = s.
Proof. rewrite !replace_same by discriminate. reflexivity. Qed.

(** On a message without the letters y and n the normalization is the
    whitespace normalization of the specification. *)
Lemma normalize_without_y_n (m : string) :
  free_of "y" m = true ->
  free_of "n" m = true ->
  _normalize_message m = whitespace_normalized m.
Proof.
  intros Hy Hn. unfold _normalize_message.
  rewrite identical_replacements.
  rewrite (replace_absent_char "y")
    by (apply free_of_collapse; [reflexivity|exact Hy]).
  rewrite (replace_absent_char "n")
    by (apply free_of_collapse; [reflexivity|exact Hn]).
  apply collapse_whitespace_normalizes.
Qed.

(** C5: the normalization is not the whitespace normalization alone.  On
    the message yes, which has no whitespace to collapse or trim, the
    replacement of y by yes rewrites the answer to yeses; likewise no
    becomes noo.  The replacements of y and n are not identical
    replacements, and the content of the message is changed. *)
Theorem normalization_rewrites_yes_and_no :
  whitespace_normalized "yes" = "yes" /\
  _normalize_message "yes" = "yeses" /\
  whitespace_normalized "no" = "no" /\
  _normalize_message "no" = "noo" /\
  _normalize_message "yes" <> whitespace_normalized "yes".
Proof. vm_compute. repeat split; discriminate. Qed.

End Normalization.

(* ===================================================================== *)
(** ** The first turn and the symptom label (C6) *)
(* ===================================================================== *)

Module Classification.
Import MedicalLogic TextSpec FlowSpec FlowFacts SessionFacts WhitespaceFacts.

Lemma drop_append (p x : string) : Py.drop (String.length p) (p +:+ x) = x.
Proof. induction p as [|a p IH]; [reflexivity|]. exact IH. Qed.

Lemma startswith_append (p x : string) : Py.startswith (p +:+ x) p = true.
Proof.
  induction p as [|a p IH]; [destruct x; reflexivity|].
  rewrite append_cons. cbn. rewrite Ascii.eqb_refl. exact IH.
Qed.

(** [startswith] decides [prefix_of]. *)
Lemma startswith_prefix_of (s p : string) :
  Py.startswith s p = true <-> exists x, prefix_of p s x.
Proof.
  split.
  - intros H. exists (Py.drop (String.length p) s).
    apply Normalization.startswith_drop. exact H.
  - intros [x ->]. apply startswith_append.
Qed.

Lemma contains_cons (c : ascii) (r p : string) :
  Py.contains (String c r) p
  = Py.startswith (String c r) p || Py.contains r p.
Proof. reflexivity. Qed.

Lemma startswith_contains (s p : string) :
  Py.startswith s p = true -> Py.contains s p = true.
Proof.
  destruct s as [|c r]; [cbn [Py.contains]|rewrite contains_cons];
    intros ->; reflexivity.
Qed.

(** [contains] decides [occurs_in]. *)
Lemma contains_occurs_in (s p : string) :
  Py.contains s p = true <-> occurs_in p s.
Proof.
  split.
  - induction s as [|c r IH].
    + cbn. rewrite orb_false_r. intros H.
      exists EmptyString, (Py.drop (String.length p) EmptyString).
      apply (Normalization.startswith_drop p EmptyString H).
    + rewrite contains_cons. intros H. apply orb_true_iff in H.
      destruct H as [H|H].
      * exists EmptyString, (Py.drop (String.length p) (String c r)).
        apply (Normalization.startswith_drop p _ H).
      * destruct (IH H) as (a & b & ->).
        exists (String c a), b. reflexivity.
  - intros (a & b & ->). induction a as [|c a IH].
    + change (EmptyString +:+ p +:+ b) with (p +:+ b).
      apply startswith_contains, startswith_append.
    + rewrite append_cons, contains_cons, IH. apply orb_true_r.
Qed.

Lemma existsb_group_matches (patterns : list string) (s : string) :
  existsb (Py.contains s) patterns = true <-> group_matches patterns s.
Proof.
  rewrite existsb_exists. unfold group_matches.
  split; intros (p & Hin & H); exists p; (split; [exact Hin|]);
    apply contains_occurs_in; exact H.
Qed.

(** The two nested loops return the label of the first group, in table
    order, one of whose patterns occurs in the text. *)
Lemma first_symptom_type_spec (table : list (string * list string))
      (s label : string) :
  first_symptom_type table s = Some label <->
  first_matching_group table s label.
Proof.
  split.
  - induction table as [|[l ps] rest IH]; [discriminate|].
    cbn [first_symptom_type].
    destruct (existsb (Py.contains s) ps) eqn:E.
    + intros H. inversion H; subst.
      exists [], ps, rest. repeat split.
      * apply existsb_group_matches. exact E.
      * constructor.
    + intros H. destruct (IH H) as (before & ps' & after & -> & Hm & Hb).
      exists ((l, ps) :: before), ps', after. repeat split; [exact Hm|].
      constructor; [|exact Hb].
      cbn. intros Hg. apply existsb_group_matches in Hg. congruence.
  - intros (before & ps & after & -> & Hm & Hb).
    induction before as [|[l' ps'] before IH]; cbn [app first_symptom_type].
    + apply existsb_group_matches in Hm. rewrite Hm. reflexivity.
    + inversion Hb as [|? ? Hn Hb']; subst. cbn in Hn.
      destruct (existsb (Py.contains s) ps') eqn:E.
      * exfalso. apply Hn. apply existsb_group_matches. exact E.
      * apply IH. exact Hb'.
Qed.

Lemma first_symptom_type_none (table : list (string * list string))
      (s : string) :
  first_symptom_type table s = None <->
  forall label, ~ first_matching_group table s label.
Proof.
  split.
  - intros H label Hm. apply first_symptom_type_spec in Hm. congruence.
  - intros H. destruct (first_symptom_type table s) as [l|] eqn:E;
      [|reflexivity].
    exfalso. apply (H l). apply first_symptom_type_spec. exact E.
Qed.

Lemma append_cancel_l (p x y : string) : p +:+ x = p +:+ y -> x = y.
Proof.
  induction p as [|a p IH]; [intros H; exact H|].
  rewrite !append_cons. intros H. inversion H. apply IH. assumption.
Qed.

(** The loop over the leading phrases removes the first phrase, in list
    order, that starts the text; this determines the result. *)
Lemma remove_first_prefix_spec (phrases : list string) (text : string) :
  leading_phrase_removed phrases text (remove_first_prefix phrases text).
Proof.
  induction phrases as [|q ps IH]; cbn [remove_first_prefix].
  - right. split; [constructor|reflexivity].
  - destruct (Py.startswith text q) eqn:E.
    + left. exists [], q, ps, (Py.drop (String.length q) text).
      repeat split; [|constructor].
      apply Normalization.startswith_drop. exact E.
    + assert (Hq : forall x, ~ prefix_of q text x).
      { intros x Hx.
        assert (Py.startswith text q = true)
          by (apply startswith_prefix_of; exists x; exact Hx).
        congruence. }
      destruct IH as [(before & p & after & tail & -> & Hp & Hb & Hr)
                     |[Hall Hr]].
      * left. exists (q :: before), p, after, tail.
        repeat split; [exact Hp| |exact Hr]. constructor; assumption.
      * right. split; [|exact Hr]. constructor; assumption.
Qed.

Lemma leading_phrase_removed_unique (phrases : list string)
      (text rest : string) :
  leading_phrase_removed phrases text rest ->
  rest = remove_first_prefix phrases text.
Proof.
  revert rest. induction phrases as [|q ps IH]; intros rest H.
  - destruct H as [(before & p & after & tail & Hl & _)|[_ Hr]];
      [destruct before; discriminate|exact Hr].
  - cbn [remove_first_prefix].
    destruct H as [(before & p & after & tail & Hl & Hp & Hb & Hr)|[Hall Hr]].
    + destruct before as [|q' before]; cbn [app] in Hl; inversion Hl; subst.
      * unfold prefix_of in Hp. subst text.
        rewrite startswith_append, drop_append. reflexivity.
      * inversion Hb as [|? ? Hn Hb']; subst.
        destruct (Py.startswith text q') eqn:E.
        { exfalso. apply startswith_prefix_of in E. destruct E as [x Hx].
          exact (Hn x Hx). }
        apply IH. left. exists before, p, after, tail. repeat split; assumption.
    + inversion Hall as [|? ? Hn Hall']; subst.
      destruct (Py.startswith text q) eqn:E.
      { exfalso. apply startswith_prefix_of in E. destruct E as [x Hx].
        exact (Hn x Hx). }
      apply IH. right. split; [exact Hall'|reflexivity].
Qed.

(** C6, as stated, fails: on the message made of the bare phrase, no
    group matches and the phrase starts the message, yet the symptom
    stored is the message itself, phrase included, not what remains
    after the phrase. *)
Lemma bare_phrase_is_kept :
  (forall label,
      ~ first_matching_group symptom_patterns (Py.lower "I have") label) /\
  claimed_fallback "I have" = EmptyString /\
  initial_symptom
    (conversation_state (process_message "I have" (fresh 0 0) groq_unavailable))
    = "I have" /\
  initial_symptom
    (conversation_state (process_message "I have" (fresh 0 0) groq_unavailable))
    <> claimed_fallback "I have".
Proof.
  split; [apply first_symptom_type_none; vm_compute; reflexivity|].
  vm_compute. repeat split; discriminate.
Qed.

(** The label of a message whose remainder has capitals is lower-cased
    throughout but for its first character. *)
Lemma remainder_is_lower_cased :
  initial_symptom
    (conversation_state
       (process_message "I got COVID" (fresh 0 0) groq_unavailable))
  = "Covid".
Proof. vm_compute. reflexivity. Qed.

(** The classification reads the normalized message: through the
    replacement of n by no, the message nausea, in which a pattern of the
    group nausea occurs, is not given that label. *)
Lemma nausea_is_not_classified :
  group_matches ["nausea"; "nauseous"; "sick to stomach"; "queasy"]
                (Py.lower "nausea") /\
  initial_symptom
    (conversation_state (process_message "nausea" (fresh 0 0) groq_unavailable))
  = "Noausea".
Proof.
  split; [|vm_compute; reflexivity].
  exists "nausea". split; [left; reflexivity|].
  exists EmptyString, EmptyString. reflexivity.
Qed.

(** C6 (amended): a message processed at [question_number = 0] leaves
    [question_number = 1] whatever its content, and [is_complete] and
    [answers] as they were ([is_complete] is false on every state with
    [question_number = 0] of a session served from a fresh state).  The
    symptom is read off the normalized message: it is the label of the
    first group, in table order, one of whose patterns occurs in the
    lower-cased normalized message; when no group matches it is the
    lower-cased, trimmed normalized message without the first leading
    phrase (in list order) that starts it, trimmed again and capitalized,
    or the normalized message itself when nothing remains. *)
Theorem initial_turn_stores_symptom (m : string) (st : ConversationState)
        (g : GroqClient) :
  question_number st = 0 ->
  question_number (conversation_state (process_message m st g)) = 1 /\
  is_complete (conversation_state (process_message m st g)) = is_complete st /\
  answers (conversation_state (process_message m st g)) = answers st /\
  (forall label,
      first_matching_group symptom_patterns
        (Py.lower (_normalize_message m)) label ->
      initial_symptom (conversation_state (process_message m st g)) = label) /\
  ((forall label,
       ~ first_matching_group symptom_patterns
           (Py.lower (_normalize_message m)) label) ->
   exists rest,
     leading_phrase_removed prefixes_to_remove
       (Py.strip (Py.lower (_normalize_message m))) rest /\
     initial_symptom (conversation_state (process_message m st g))
     = match rest with
       | EmptyString => _normalize_message m
       | _ => Py.capitalize rest
       end) /\
  ((exists label,
       first_matching_group symptom_patterns
         (Py.lower (_normalize_message m)) label) \/
   (forall label,
       ~ first_matching_group symptom_patterns
           (Py.lower (_normalize_message m)) label)) /\
  (forall turns t1 t2,
      question_number (process_turns turns (fresh t1 t2)) = 0 ->
      is_complete (process_turns turns (fresh t1 t2)) = false).
Proof.
  intros H0. rewrite process_message_initial by exact H0. cbn.
  repeat split.
  - intros label Hm. apply first_symptom_type_spec in Hm.
    unfold _extract_symptom. rewrite Hm. reflexivity.
  - intros Hn. apply first_symptom_type_none in Hn.
    unfold _extract_symptom. rewrite Hn.
    exists (remove_first_prefix prefixes_to_remove
              (Py.strip (Py.lower (_normalize_message m)))).
    split; [apply remove_first_prefix_spec|reflexivity].
  - destruct (first_symptom_type symptom_patterns
                (Py.lower (_normalize_message m))) as [l|] eqn:E.
    + left. exists l. apply first_symptom_type_spec. exact E.
    + right. apply first_symptom_type_none. exact E.
  - intros turns t1 t2 Hq.
    destruct (after_turns_from_fresh turns t1 t2) as (Hq' & _ & Hc).
    rewrite Hc. apply Z.ltb_ge. rewrite Hq in Hq'. unfold max_questions in *.
    lia.
Qed.

Lemma initial_turn_stores_symptom_witness :
  initial_symptom
    (conversation_state
       (process_message "I have a headache" (fresh 0 0) groq_unavailable))
  = "headache".
Proof.
  destruct (initial_turn_stores_symptom "I have a headache" (fresh 0 0)
              groq_unavailable) as (_ & _ & _ & H & _).
  - reflexivity.
  - apply H.
    exists [], ["headache"; "head pain"; "head ache"; "migraine"],
      [ ("fever", ["fever"; "temperature"; "hot"; "burning up"]);
        ("cough", ["cough"; "coughing"; "hack"]);
        ("pain", ["pain"; "hurt"; "ache"; "sore"]);
        ("nausea", ["nausea"; "nauseous"; "sick to stomach"; "queasy"]);
        ("fatigue", ["tired"; "fatigue"; "exhausted"; "weak"]);
        ("dizziness", ["dizzy"; "dizziness"; "lightheaded"; "vertigo"]) ].
    split; [reflexivity|]. split; [|constructor].
    exists "headache". split; [left; reflexivity|].
    exists "i have a ", EmptyString. vm_compute. reflexivity.
Defined.

End Classification.

(* ===================================================================== *)
(** ** Further properties of the flow engine *)
(* ===================================================================== *)

Module FlowMore.
Import MedicalLogic TextSpec FlowSpec FlowFacts MoreSpec WhitespaceFacts.

(** X1: the first statement of [_normalize_message], the regular
    expression substitution applied to the stripped message, returns the
    words of the message (its maximal runs of non-whitespace characters)
    separated by single spaces. *)
Theorem whitespace_collapse_joins_words (m : string) :
  collapse_whitespace m = Py.join " " (words m).
Proof. apply collapse_whitespace_normalizes. Qed.

(** X2: on a message in which neither the letter y nor the letter n
    occurs, [_normalize_message] returns the words of the message
    separated by single spaces; nothing else is changed. *)
Theorem normalize_plain_message (m : string) :
  free_of "y" m = true ->
  free_of "n" m = true ->
  _normalize_message m = Py.join " " (words m).
Proof. intros Hy Hn. apply Normalization.normalize_without_y_n; assumption. Qed.

Lemma normalize_plain_message_witness :
  _normalize_message "  I  have a   headache " = "I have a headache".
Proof.
  rewrite (normalize_plain_message "  I  have a   headache ");
    vm_compute; reflexivity.
Defined.

Lemma startswith_empty (s : string) : Py.startswith s EmptyString = true.
Proof. destruct s; reflexivity. Qed.

Lemma followed_by_replace_n (s : string) :
  followed_by "n" "o" (Py.replace "n" "no" s) = true.
Proof.
  unfold Py.replace. induction s as [|c r IH]; [reflexivity|].
  cbn [Py.replace_from Py.startswith]. rewrite startswith_empty, andb_true_r.
  destruct (Ascii.eqb "n" c) eqn:E.
  - change (followed_by "n" "o"
              (String "n" (String "o" (Py.replace_from "n" "no" 0 r))) = true).
    cbn [followed_by]. rewrite IH. reflexivity.
  - cbn [followed_by]. rewrite Ascii.eqb_sym, E, IH. reflexivity.
Qed.

Lemma lower_char_n (c : ascii) :
  Py.lower_char c = "n"%char -> c = "n"%char \/ c = "N"%char.
Proof.
  destruct c as [[] [] [] [] [] [] [] []]; vm_compute; intros H;
    try discriminate H; auto.
Qed.

Lemma followed_by_lower (s : string) :
  followed_by "n" "o" s = true ->
  free_of "N" s = true ->
  followed_by "n" "o" (Py.lower s) = true.
Proof.
  induction s as [|c r IH]; intros Hf Hn; [reflexivity|].
  cbn [followed_by] in Hf. apply andb_true_iff in Hf. destruct Hf as [Hc Hr].
  cbn [free_of] in Hn. apply andb_true_iff in Hn. destruct Hn as [HN Hn].
  cbn [Py.lower followed_by]. rewrite (IH Hr Hn), andb_true_r.
  destruct (Ascii.eqb (Py.lower_char c) "n") eqn:E; [|reflexivity].
  apply Ascii.eqb_eq in E. destruct (lower_char_n c E) as [->| ->].
  - cbn in Hc. destruct r as [|d r']; [discriminate|].
    apply Ascii.eqb_eq in Hc. subst d. reflexivity.
  - discriminate HN.
Qed.

Lemma free_of_append (c : ascii) (a b : string) :
  free_of c (a +:+ b) = free_of c a && free_of c b.
Proof.
  induction a as [|x a IH]; [reflexivity|].
  rewrite append_cons. cbn [free_of]. rewrite IH, andb_assoc. reflexivity.
Qed.

Lemma free_of_replace_from (c : ascii) (old new s : string) :
  free_of c new = true ->
  free_of c s = true ->
  forall k, free_of c (Py.replace_from old new k s) = true.
Proof.
  intros Hnew. induction s as [|d r IH]; intros Hs k; [reflexivity|].
  cbn [free_of] in Hs. apply andb_true_iff in Hs. destruct Hs as [Hd Hr].
  cbn [Py.replace_from]. destruct k as [|k]; [|apply IH; exact Hr].
  destruct (Py.startswith (String d r) old).
  - rewrite free_of_append, Hnew. apply IH. exact Hr.
  - cbn [free_of]. rewrite Hd. apply IH. exact Hr.
Qed.

Lemma free_of_normalize (c : ascii) (m : string) :
  Ascii.eqb c " " = false ->
  free_of c "yes" = true ->
  free_of c "no" = true ->
  free_of c m = true ->
  free_of c (_normalize_message m) = true.
Proof.
  intros Hsp Hyes Hno Hm. unfold _normalize_message, Py.replace.
  repeat (apply free_of_replace_from; [assumption|]).
  apply Normalization.free_of_collapse; assumption.
Qed.

Lemma followed_by_inside (a b c : ascii) (u v : string) :
  followed_by a b (u +:+ String a (String c v)) = true -> c = b.
Proof.
  induction u as [|x u IH].
  - change (EmptyString +:+ String a (String c v))
      with (String a (String c v)).
    cbn [followed_by]. rewrite Ascii.eqb_refl. intros H.
    apply andb_true_iff in H. destruct H as [H _].
    apply Ascii.eqb_eq. exact H.
  - rewrite append_cons. cbn [followed_by]. intros H.
    apply andb_true_iff in H. apply IH, H.
Qed.

(** A text in which every n is followed by o holds no pattern in which an
    n is followed by another character. *)
Lemma followed_by_excludes (s pa pb : string) (c : ascii) :
  followed_by "n" "o" s = true ->
  c <> "o"%char ->
  Py.contains s (pa +:+ String "n" (String c pb)) = false.
Proof.
  intros Hf Hc.
  destruct (Py.contains s (pa +:+ String "n" (String c pb))) eqn:E;
    [|reflexivity].
  exfalso. apply Classification.contains_occurs_in in E.
  destruct E as (x & y & ->). apply Hc.
  apply (followed_by_inside "n" "o" c (x +:+ pa) (pb +:+ y)).
  etransitivity; [|exact Hf]. f_equal.
  rewrite !append_assoc, !append_cons. reflexivity.
Qed.

(** X3: in the lower-cased normalized message of a message without the
    capital letter N, every n is directly followed by an o (the
    normalization has replaced each n by no).  So the patterns migraine,
    burning up, coughing, nausea, nauseous and dizziness of the symptom
    table never occur in it and cannot classify such a message. *)
Theorem normalized_n_is_followed_by_o (m : string) :
  free_of "N" m = true ->
  followed_by "n" "o" (Py.lower (_normalize_message m)) = true /\
  Forall (fun p => Py.contains (Py.lower (_normalize_message m)) p = false)
         patterns_with_n.
Proof.
  intros HN.
  assert (Hf : followed_by "n" "o" (Py.lower (_normalize_message m)) = true).
  { apply followed_by_lower.
    - unfold _normalize_message. apply followed_by_replace_n.
    - apply free_of_normalize; [reflexivity..|exact HN]. }
  split; [exact Hf|].
  unfold patterns_with_n. repeat constructor.
  - apply (followed_by_excludes _ "migrai" "" "e" Hf). discriminate.
  - apply (followed_by_excludes _ "bur" "ng up" "i" Hf). discriminate.
  - apply (followed_by_excludes _ "coughi" "" "g" Hf). discriminate.
  - apply (followed_by_excludes _ "" "usea" "a" Hf). discriminate.
  - apply (followed_by_excludes _ "" "useous" "a" Hf). discriminate.
  - apply (followed_by_excludes _ "dizzi" "ss" "e" Hf). discriminate.
Qed.

Lemma normalized_n_is_followed_by_o_witness :
  Py.contains (Py.lower (_normalize_message "i feel nausea")) "nausea" = false.
Proof.
  destruct (normalized_n_is_followed_by_o "i feel nausea") as [_ H].
  - vm_compute. reflexivity.
  - apply (proj1 (Forall_forall _ _) H).
    unfold patterns_with_n. do 3 apply list_elem_of_further.
    apply list_elem_of_here.
Defined.

End FlowMore.

Module FlowInvariants.
Import MedicalLogic TextSpec FlowSpec FlowFacts MoreSpec WhitespaceFacts.

(** X4: whatever the message, the state and the client, one call of
    [process_message] advances [question_number] by at most one and never
    lowers it, leaves [answers] alone on the first turn and appends
    exactly the normalized message on any other, never writes the two
    timestamps, rewrites [initial_symptom] on the first turn only, and
    never takes [is_complete] back. *)
Theorem turn_footprint (m : string) (st : ConversationState) (g : GroqClient) :
  question_number st
    <= question_number (conversation_state (process_message m st g))
    <= question_number st + 1 /\
  (question_number st = 0 ->
   answers (conversation_state (process_message m st g)) = answers st) /\
  (question_number st <> 0 ->
   answers (conversation_state (process_message m st g))
     = answers st ++ [_normalize_message m] /\
   initial_symptom (conversation_state (process_message m st g))
     = initial_symptom st) /\
  created_at (conversation_state (process_message m st g)) = created_at st /\
  last_updated (conversation_state (process_message m st g))
    = last_updated st /\
  (is_complete st = true ->
   is_complete (conversation_state (process_message m st g)) = true).
Proof.
  destruct (Z.eq_dec (question_number st) 0) as [H0|H0].
  - rewrite process_message_initial by exact H0. cbn.
    repeat split; try lia; try tauto.
  - destruct (Z_lt_le_dec (question_number st) max_questions) as [Hlt|Hge].
    + rewrite process_message_next by assumption. cbn.
      repeat split; try lia; try tauto.
    + rewrite process_message_diagnosis by assumption. cbn.
      repeat split; try lia; try tauto.
Qed.

Lemma turn_footprint_witness :
  answers
    (conversation_state
       (process_message "a week"
          (mkState 1 false "headache" [] (IsoText 0) (IsoText 0))
          groq_unavailable))
  = ["a week"].
Proof.
  destruct (turn_footprint "a week"
              (mkState 1 false "headache" [] (IsoText 0) (IsoText 0))
              groq_unavailable) as (_ & _ & H & _).
  destruct H as [H _]; [discriminate|]. rewrite H. vm_compute. reflexivity.
Defined.

Lemma question_text_nonempty (g : GroqClient) (s : string) (n : Z)
      (l : list string) :
  question_text g s n l <> EmptyString.
Proof.
  unfold question_text, _get_fallback_question.
  destruct (generate_follow_up_question g s n l) as [[[|c r]|]|e];
    try discriminate;
    destruct (n =? 1); try discriminate;
    destruct (n =? 2); try discriminate;
    destruct (n =? 3); discriminate.
Qed.

Lemma diagnosis_text_nonempty (g : GroqClient) (st : ConversationState) :
  diagnosis_text g st <> EmptyString.
Proof.
  unfold diagnosis_text, _get_fallback_diagnosis.
  destruct (generate_diagnosis g _ _) as [[[|c r]|]|e]; discriminate.
Qed.

Lemma bot_message_nonempty (m : string) (st : ConversationState)
      (g : GroqClient) :
  bot_message (process_message m st g) <> EmptyString.
Proof.
  destruct (Z.eq_dec (question_number st) 0) as [H0|H0].
  - rewrite process_message_initial by exact H0. apply question_text_nonempty.
  - destruct (Z_lt_le_dec (question_number st) max_questions) as [Hlt|Hge].
    + rewrite process_message_next by assumption. apply question_text_nonempty.
    + rewrite process_message_diagnosis by assumption.
      apply diagnosis_text_nonempty.
Qed.

(** X5: the reply of [process_message] is never the empty text: whenever
    the client returns [None], an empty text or raises, a static question
    or the diagnosis template stands in. *)
Theorem reply_never_empty (m : string) (st : ConversationState)
        (g : GroqClient) :
  bot_message (process_message m st g) <> EmptyString.
Proof. apply bot_message_nonempty. Qed.

Lemma sub_spaces_nonempty (s : string) :
  s <> EmptyString -> Py.sub_spaces false s <> EmptyString.
Proof.
  destruct s as [|c r]; [contradiction|]. intros _. cbn.
  destruct (Py.isspace c); discriminate.
Qed.

Lemma replace_nonempty (old new s : string) :
  new <> EmptyString -> s <> EmptyString ->
  Py.replace old new s <> EmptyString.
Proof.
  intros Hn Hs. destruct s as [|c r]; [contradiction|].
  unfold Py.replace. cbn [Py.replace_from].
  destruct (Py.startswith (String c r) old); [|discriminate].
  destruct new as [|a new']; [contradiction|]. discriminate.
Qed.

Lemma normalize_nonempty (m : string) :
  Py.strip m <> EmptyString -> _normalize_message m <> EmptyString.
Proof.
  intros H. unfold _normalize_message, collapse_whitespace.
  repeat (apply replace_nonempty; [discriminate|]).
  apply sub_spaces_nonempty. exact H.
Qed.

Lemma first_symptom_type_label (table : list (string * list string))
      (s l : string) :
  first_symptom_type table s = Some l -> In l (map fst table).
Proof.
  induction table as [|[l' ps] rest IH]; [discriminate|].
  cbn [first_symptom_type map fst].
  destruct (existsb (Py.contains s) ps).
  - intros H. inversion H. left. reflexivity.
  - intros H. right. apply IH. exact H.
Qed.

Lemma extract_symptom_nonempty (x : string) :
  x <> EmptyString -> _extract_symptom x <> EmptyString.
Proof.
  intros Hx. unfold _extract_symptom.
  destruct (first_symptom_type symptom_patterns (Py.lower x)) as [l|] eqn:E.
  - apply first_symptom_type_label in E. cbn in E.
    intuition (subst; discriminate).
  - unfold _clean_symptom_text.
    destruct (remove_first_prefix _ _); [exact Hx|discriminate].
Qed.

(** X6: the symptom stored by the first turn is never empty when the
    message is not blank (the chat route rejects blank messages): it is a
    label of the table, a capitalized remainder, or the normalized
    message. *)
Theorem stored_symptom_never_empty (m : string) (st : ConversationState)
        (g : GroqClient) :
  question_number st = 0 ->
  Py.strip m <> EmptyString ->
  initial_symptom (conversation_state (process_message m st g))
    <> EmptyString.
Proof.
  intros H0 Hm. rewrite process_message_initial by exact H0. cbn.
  apply extract_symptom_nonempty, normalize_nonempty, Hm.
Qed.

Lemma stored_symptom_never_empty_witness :
  initial_symptom
    (conversation_state (process_message "I have" (fresh 0 0) groq_raising))
  <> EmptyString.
Proof.
  apply (stored_symptom_never_empty "I have" (fresh 0 0) groq_raising).
  - reflexivity.
  - vm_compute. discriminate.
Defined.

End FlowInvariants.

(* ===================================================================== *)
(** ** Further properties of the session store *)
(* ===================================================================== *)

Module StoreMore.
Import ConversationManager SessionSweep.

(** X7: a state stored by [update_conversation] comes back from
    [get_conversation] with every field but [last_updated] as stored, as
    long as the clock of the [get] is not more than 24 hours after the
    update (24 hours exactly is still in time); later, the [get] answers
    with a new state instead. *)
Theorem update_then_get (sid : string) (st : ConversationState)
        (now now' t1 t2 : Z) (convs : gmap string ConversationState) :
  (now' <= now + 24 * 3600000000 ->
   get_conversation sid now' t1 t2 (update_conversation sid st now convs)
   = (set_last_updated (IsoText now) st,
      update_conversation sid st now convs)) /\
  (now + 24 * 3600000000 < now' ->
   fst (get_conversation sid now' t1 t2 (update_conversation sid st now convs))
   = _create_new_conversation t1 t2).
Proof.
  unfold get_conversation, update_conversation.
  rewrite lookup_insert_eq.
  unfold _is_conversation_expired, isoformat, timedelta_hours, expiry_hours.
  cbn [last_updated set_last_updated fromisoformat].
  split; intros H.
  - destruct (Z.ltb_spec (now + 24 * 3600000000) now'); [lia|reflexivity].
  - destruct (Z.ltb_spec (now + 24 * 3600000000) now'); [reflexivity|lia].
Qed.

Lemma update_then_get_witness :
  fst (get_conversation "s1" (24 * 3600000000) 5 6
         (update_conversation "s1"
            (mkState 2 false "fever" ["a week"] (IsoText 0) (IsoText 0)) 0 ∅))
  = mkState 2 false "fever" ["a week"] (IsoText 0) (IsoText 0).
Proof.
  destruct (update_then_get "s1"
              (mkState 2 false "fever" ["a week"] (IsoText 0) (IsoText 0))
              0 (24 * 3600000000) 5 6 ∅) as [H _].
  rewrite H by lia. reflexivity.
Defined.

Lemma reset_get_blank (sid : string) (t1 t2 now t1' t2' : Z)
      (convs : gmap string ConversationState) :
  question_number
    (fst (get_conversation sid now t1' t2'
            (reset_conversation sid t1 t2 convs))) = 0 /\
  is_complete
    (fst (get_conversation sid now t1' t2'
            (reset_conversation sid t1 t2 convs))) = false /\
  initial_symptom
    (fst (get_conversation sid now t1' t2'
            (reset_conversation sid t1 t2 convs))) = EmptyString /\
  answers
    (fst (get_conversation sid now t1' t2'
            (reset_conversation sid t1 t2 convs))) = [].
Proof.
  unfold get_conversation, reset_conversation. rewrite lookup_insert_eq.
  destruct (_is_conversation_expired now (_create_new_conversation t1 t2));
    repeat split.
Qed.

(** X8: after [reset_conversation], a [get_conversation] on the session
    returns a blank state ([question_number] 0, not complete, no symptom,
    no answers) whatever was stored before and whatever the clock says
    at the reset and at the [get]. *)
Theorem reset_then_get (sid : string) (t1 t2 now t1' t2' : Z)
        (convs : gmap string ConversationState) :
  question_number
    (fst (get_conversation sid now t1' t2'
            (reset_conversation sid t1 t2 convs))) = 0 /\
  is_complete
    (fst (get_conversation sid now t1' t2'
            (reset_conversation sid t1 t2 convs))) = false /\
  initial_symptom
    (fst (get_conversation sid now t1' t2'
            (reset_conversation sid t1 t2 convs))) = EmptyString /\
  answers
    (fst (get_conversation sid now t1' t2'
            (reset_conversation sid t1 t2 convs))) = [].
Proof. apply reset_get_blank. Qed.

(** X9: [get_conversation], [update_conversation] and
    [reset_conversation] read and write the entry of the named session
    only: every other session is stored afterwards as it was before. *)
Theorem other_sessions_untouched (sid other : string)
        (st : ConversationState) (now t1 t2 : Z)
        (convs : gmap string ConversationState) :
  other <> sid ->
  snd (get_conversation sid now t1 t2 convs) !! other = convs !! other /\
  update_conversation sid st now convs !! other = convs !! other /\
  reset_conversation sid t1 t2 convs !! other = convs !! other.
Proof.
  intros Hne. split; [apply SessionStore.get_conversation_stored; exact Hne|].
  unfold update_conversation, reset_conversation.
  split; apply lookup_insert_ne; congruence.
Qed.

Lemma other_sessions_untouched_witness :
  update_conversation "s1" (_create_new_conversation 0 0) 9
    {["s2" := _create_new_conversation 1 1]} !! "s2"
  = Some (_create_new_conversation 1 1).
Proof.
  destruct (other_sessions_untouched "s1" "s2" (_create_new_conversation 0 0)
              9 0 0 {["s2" := _create_new_conversation 1 1]}) as (_ & H & _).
  - discriminate.
  - rewrite H. apply lookup_singleton_eq.
Defined.

Lemma expired_sessions_elem (clock : string -> Z)
      (convs : gmap string ConversationState) (sid : string) :
  sid ∈ expired_sessions clock convs <->
  exists st, convs !! sid = Some st /\
             _is_conversation_expired (clock sid) st = true.
Proof.
  unfold expired_sessions. rewrite list_elem_of_fmap. split.
  - intros ([k st] & -> & Hin). apply list_elem_of_filter in Hin.
    destruct Hin as [He Hin]. apply elem_of_map_to_list in Hin.
    exists st. split; assumption.
  - intros (st & Hl & He). exists (sid, st). split; [reflexivity|].
    apply list_elem_of_filter. split; [exact He|].
    apply elem_of_map_to_list. exact Hl.
Qed.

(** What is stored under an id after the sweep. *)
Lemma cleanup_lookup (clock : string -> Z)
      (convs : gmap string ConversationState) (sid : string) :
  snd (cleanup_expired_sessions clock convs) !! sid =
    match convs !! sid with
    | Some st =>
        if _is_conversation_expired (clock sid) st then None else Some st
    | None => None
    end.
Proof.
  unfold cleanup_expired_sessions. cbn [snd].
  destruct (convs !! sid) as [st|] eqn:Hl.
  - destruct (_is_conversation_expired (clock sid) st) eqn:He.
    + apply lookup_foldr_delete. apply elem_of_reverse.
      apply expired_sessions_elem. exists st. split; assumption.
    + rewrite lookup_foldr_delete_not_elem_of; [exact Hl|].
      rewrite elem_of_reverse, expired_sessions_elem.
      intros (st' & Hl' & He'). congruence.
  - destruct (foldr delete convs (reverse (expired_sessions clock convs))
                !! sid) as [y|] eqn:E; [|reflexivity].
    apply lookup_foldr_delete_Some in E. destruct E as [_ E]. congruence.
Qed.

Lemma get_all_sessions_lookup (clock : string -> Z)
      (convs : gmap string ConversationState) (sid : string) :
  get_all_sessions clock convs !! sid =
    match convs !! sid with
    | Some st =>
        if _is_conversation_expired (clock sid) st then None else Some st
    | None => None
    end.
Proof.
  unfold get_all_sessions.
  destruct (convs !! sid) as [st|] eqn:Hl.
  - destruct (_is_conversation_expired (clock sid) st) eqn:He.
    + apply map_lookup_filter_None. right. intros st' Hl'. cbn.
      assert (st' = st) by congruence. subst. congruence.
    + apply map_lookup_filter_Some. split; [exact Hl|exact He].
  - apply map_lookup_filter_None. left. exact Hl.
Qed.

Lemma expired_count (clock : string -> Z)
      (convs : gmap string ConversationState) :
  (length (expired_sessions clock convs)
   + size (get_all_sessions clock convs) = size convs)%nat.
Proof.
  unfold expired_sessions, get_all_sessions. rewrite length_fmap.
  induction convs as [|sid st convs Hn IH] using map_ind.
  - rewrite map_to_list_empty, map_filter_empty, !map_size_empty. reflexivity.
  - rewrite (map_to_list_insert convs sid st Hn), filter_cons.
    rewrite (map_size_insert_None sid st convs Hn).
    cbn [fst snd]. destruct (_is_conversation_expired (clock sid) st) eqn:He.
    + rewrite decide_True by reflexivity. cbn [length].
      rewrite map_filter_insert_not'.
      * lia.
      * cbn. congruence.
      * intros y Hy. congruence.
    + rewrite decide_False by discriminate.
      rewrite map_filter_insert_True by exact He.
      rewrite map_size_insert_None; [lia|].
      apply map_lookup_filter_None. left. exact Hn.
Qed.

(** X10: [cleanup_expired_sessions] removes exactly the sessions that are
    expired at the reading made for them and leaves every other one
    stored as it was; the count it returns is the number of sessions
    removed; and a second sweep with the same readings finds nothing to
    remove. *)
Theorem cleanup_removes_expired (clock : string -> Z)
        (convs : gmap string ConversationState) :
  (forall sid,
      snd (cleanup_expired_sessions clock convs) !! sid =
        match convs !! sid with
        | Some st =>
            if _is_conversation_expired (clock sid) st then None else Some st
        | None => None
        end) /\
  (fst (cleanup_expired_sessions clock convs)
   + size (snd (cleanup_expired_sessions clock convs)) = size convs)%nat /\
  cleanup_expired_sessions clock (snd (cleanup_expired_sessions clock convs))
  = (0%nat, snd (cleanup_expired_sessions clock convs)).
Proof.
  assert (Heq : snd (cleanup_expired_sessions clock convs)
                = get_all_sessions clock convs).
  { apply map_eq. intros sid.
    rewrite cleanup_lookup, get_all_sessions_lookup. reflexivity. }
  split; [apply cleanup_lookup|]. split.
  - rewrite Heq. cbn [fst cleanup_expired_sessions]. apply expired_count.
  - assert (Hnil : expired_sessions clock
                     (snd (cleanup_expired_sessions clock convs)) = []).
    { apply elem_of_nil_inv. intros sid Hin.
      apply expired_sessions_elem in Hin. destruct Hin as (st & Hl & He).
      rewrite cleanup_lookup in Hl.
      destruct (convs !! sid) as [st'|]; [|discriminate].
      destruct (_is_conversation_expired (clock sid) st') eqn:He';
        [discriminate|]. congruence. }
    unfold cleanup_expired_sessions at 1. rewrite Hnil. reflexivity.
Qed.

(** X11: [get_all_sessions] returns exactly the stored sessions that are
    not expired at the reading made for them, each as it is stored: the
    same dict that a sweep would leave behind. *)
Theorem active_sessions_are_the_survivors (clock : string -> Z)
        (convs : gmap string ConversationState) :
  (forall sid st,
      get_all_sessions clock convs !! sid = Some st <->
      convs !! sid = Some st /\
      _is_conversation_expired (clock sid) st = false) /\
  get_all_sessions clock convs = snd (cleanup_expired_sessions clock convs).
Proof.
  split.
  - intros sid st. rewrite get_all_sessions_lookup.
    destruct (convs !! sid) as [st'|].
    + destruct (_is_conversation_expired (clock sid) st') eqn:He; split.
      * discriminate.
      * intros [H1 H2]. congruence.
      * intros H. inversion H; subst. split; [reflexivity|exact He].
      * intros [H1 _]. exact H1.
    + split; [discriminate|]. intros [H _]. discriminate.
  - apply map_eq. intros sid.
    rewrite cleanup_lookup, get_all_sessions_lookup. reflexivity.
Qed.

End StoreMore.

(* ===================================================================== *)
(** ** Further properties of the audio turn *)
(* ===================================================================== *)

Module AudioMore.
Import AudioConversationService AudioSpec AudioFacts MoreSpec.

(** Induction over a history exchange by exchange. *)
Lemma exchanges_induction (P : list Message -> Prop) :
  P [] ->
  (forall u a rest,
      role u = user -> role a = assistant -> exchanges rest -> P rest ->
      P (u :: a :: rest)) ->
  forall h, exchanges h -> P h.
Proof.
  intros Hnil Hstep h.
  assert (H : forall n l, (length l <= n)%nat -> exchanges l -> P l).
  { induction n as [|n IH]; intros l Hl He.
    - destruct l; [exact Hnil|cbn in Hl; lia].
    - destruct l as [|u [|a rest]]; [exact Hnil|contradiction|].
      destruct He as (Hu & Ha & Hr).
      apply Hstep; try assumption. apply IH; [cbn in Hl; lia|exact Hr]. }
  apply (H (length h) h). lia.
Qed.

Lemma exchanges_app (h : list Message) (t r : string) :
  exchanges h ->
  exchanges (h ++ [mkMessage user t; mkMessage assistant r]).
Proof.
  intros He. induction He as [|u a rest Hu Ha Hr IH] using exchanges_induction.
  - cbn. repeat split.
  - cbn [app exchanges]. repeat split; assumption.
Qed.

Lemma exchanges_even (h : list Message) :
  exchanges h -> exists k, length h = (2 * k)%nat.
Proof.
  intros He. induction He as [|u a rest Hu Ha Hr IH] using exchanges_induction.
  - exists 0%nat. reflexivity.
  - destruct IH as [k Hk]. exists (S k). cbn [length]. lia.
Qed.

Lemma exchanges_skipn (h : list Message) :
  exchanges h -> forall k, exchanges (skipn (2 * k) h).
Proof.
  intros He. induction He as [|u a rest Hu Ha Hr IH] using exchanges_induction;
    intros k.
  - rewrite skipn_nil. exact I.
  - destruct k as [|k].
    + cbn [Nat.mul skipn]. cbn [exchanges]. repeat split; assumption.
    + replace (2 * S k)%nat with (S (S (2 * k))) by lia.
      cbn [skipn]. apply IH.
Qed.

Lemma with_exchange_exchanges (h : list Message) (t r : string) :
  exchanges h -> exchanges (with_exchange h t r).
Proof.
  intros He. unfold with_exchange, last_entries.
  pose proof (exchanges_app h t r He) as Ha.
  destruct (exchanges_even _ Ha) as [k Hk]. rewrite Hk.
  replace (2 * k - 20)%nat with (2 * (k - 10))%nat by lia.
  apply exchanges_skipn. exact Ha.
Qed.

Lemma history_after_exchanges (svc : Services) (t : Turn) (h : list Message) :
  exchanges h -> exchanges (history_after svc t h).
Proof.
  intros He. destruct t as [p l|b l]; cbn [history_after].
  - rewrite path_turn_history.
    destruct (path_turn_ok svc p l h);
      [apply with_exchange_exchanges|]; exact He.
  - rewrite bytes_turn_history.
    destruct (bytes_turn_ok svc b l h);
      [apply with_exchange_exchanges|]; exact He.
Qed.

(** X12: from the empty history of [__init__], after any series of audio
    turns the history is a sequence of whole exchanges: a user entry
    followed by the assistant entry that answers it, again and again;
    cutting the history to 20 entries never splits an exchange. *)
Theorem history_is_made_of_exchanges (turns : list (Services * Turn)) :
  exchanges (serve turns []).
Proof.
  assert (H : forall h, exchanges h -> exchanges (serve turns h)).
  { induction turns as [|[svc t] rest IH]; intros h He; cbn [serve].
    - exact He.
    - apply IH, history_after_exchanges, He. }
  apply H. exact I.
Qed.

Lemma with_exchange_latest (h : list Message) (t r : string) :
  with_exchange h t r =
    skipn (length h + 2 - 20) h
      ++ [mkMessage user t; mkMessage assistant r] /\
  length (with_exchange h t r) = Nat.min 20 (length h + 2).
Proof.
  split.
  - unfold with_exchange, last_entries.
    rewrite length_app. cbn [length]. rewrite skipn_app.
    replace (length h + 2 - 20 - length h)%nat with 0%nat by lia.
    reflexivity.
  - unfold with_exchange. rewrite last_entries_length, length_app.
    cbn [length]. reflexivity.
Qed.

(** X13: a turn in which all three stages gave a usable result leaves a
    history that ends with the exchange of this turn (the transcript as
    user entry, the reply as assistant entry) and has
    [min 20 (len + 2)] entries: when the cap is reached it is the oldest
    entries that go. *)
Theorem successful_turn_is_latest (svc : Services) (b : list byte)
        (p l : string) (h : list Message) :
  (bytes_turn_ok svc b l h = true ->
   snd (process_audio_conversation_from_bytes svc b l h) =
     skipn (length h + 2 - 20) h
       ++ [mkMessage user (text_of (transcribe_audio_from_bytes svc b l));
           mkMessage assistant
             (text_of (generate_audio_conversation_response svc
                         (text_of (transcribe_audio_from_bytes svc b l)) h))] /\
   length (snd (process_audio_conversation_from_bytes svc b l h))
     = Nat.min 20 (length h + 2)) /\
  (path_turn_ok svc p l h = true ->
   snd (process_audio_conversation svc p l h) =
     skipn (length h + 2 - 20) h
       ++ [mkMessage user (text_of (transcribe_audio svc p l));
           mkMessage assistant
             (text_of (generate_audio_conversation_response svc
                         (text_of (transcribe_audio svc p l)) h))] /\
   length (snd (process_audio_conversation svc p l h))
     = Nat.min 20 (length h + 2)).
Proof.
  split; intros H.
  - rewrite bytes_turn_history, H. apply with_exchange_latest.
  - rewrite path_turn_history, H. apply with_exchange_latest.
Qed.

Lemma successful_turn_is_latest_witness :
  snd (process_audio_conversation_from_bytes services_working [x00%byte]
         "en-US" [mkMessage user "a"; mkMessage assistant "b"])
  = [mkMessage user "a"; mkMessage assistant "b";
     mkMessage user "hello"; mkMessage assistant "hi"].
Proof.
  destruct (successful_turn_is_latest services_working [x00%byte] "in.m4a"
              "en-US" [mkMessage user "a"; mkMessage assistant "b"])
    as [H _].
  destruct H as [H _]; [vm_compute; reflexivity|].
  rewrite H. vm_compute. reflexivity.
Defined.

(** X14: the dict returned by an audio turn (either call shape) is
    consistent: when [success] is true the error text is empty and the
    transcript, the reply and the audio (bytes or path) are all
    non-empty; when [success] is false the error text is not empty. *)
Theorem audio_result_consistent (svc : Services) (b : list byte)
        (p l : string) (h : list Message) :
  (success (fst (process_audio_conversation_from_bytes svc b l h)) = true ->
   error (fst (process_audio_conversation_from_bytes svc b l h))
     = EmptyString /\
   transcribed_text (fst (process_audio_conversation_from_bytes svc b l h))
     <> EmptyString /\
   ai_response (fst (process_audio_conversation_from_bytes svc b l h))
     <> EmptyString /\
   audio_response (fst (process_audio_conversation_from_bytes svc b l h))
     <> []) /\
  (success (fst (process_audio_conversation_from_bytes svc b l h)) = false ->
   error (fst (process_audio_conversation_from_bytes svc b l h))
     <> EmptyString) /\
  (success (fst (process_audio_conversation svc p l h)) = true ->
   error (fst (process_audio_conversation svc p l h)) = EmptyString /\
   transcribed_text (fst (process_audio_conversation svc p l h))
     <> EmptyString /\
   ai_response (fst (process_audio_conversation svc p l h)) <> EmptyString /\
   audio_response (fst (process_audio_conversation svc p l h))
     <> EmptyString) /\
  (success (fst (process_audio_conversation svc p l h)) = false ->
   error (fst (process_audio_conversation svc p l h)) <> EmptyString).
Proof.
  unfold process_audio_conversation_from_bytes, process_audio_conversation.
  destruct (transcribe_audio_from_bytes svc b l) as [[[|c t]|]|e];
    destruct (transcribe_audio svc p l) as [[[|cp tp]|]|ep]; cbn;
    try destruct (generate_audio_conversation_response svc (String c t) h)
      as [[[|c' r]|]|e']; cbn;
    try destruct (generate_audio_conversation_response svc (String cp tp) h)
      as [[[|cp' rp]|]|ep']; cbn;
    try destruct (text_to_speech svc (String c' r) None) as [[[|x a]|]|e''];
    cbn;
    try destruct (_generate_audio_response svc (String cp' rp)) as [[|y q]|];
    cbn;
    repeat split; intros; try discriminate; try reflexivity.
Qed.

Lemma audio_result_consistent_witness :
  error (fst (process_audio_conversation_from_bytes services_no_transcript
                [x00%byte] "en-US" [])) <> EmptyString.
Proof.
  destruct (audio_result_consistent services_no_transcript [x00%byte]
              "in.m4a" "en-US" []) as (_ & H & _).
  apply H. vm_compute. reflexivity.
Defined.

End AudioMore.

(* ===================================================================== *)
(** ** The text-to-speech adapter *)
(* ===================================================================== *)

Module SpeechAdapter.
Import AudioConversationService AudioSpec AudioFacts.

(** X15: when [text_to_speech] returns audio, the API key is set, the
    text is not blank, the endpoint answered 200 with exactly that audio
    as body and, if an output path was given, the file was written;
    without a key or for a blank text it returns [None] whatever the
    endpoint would answer. *)
Theorem speech_is_the_answer_of_the_endpoint
        (api_key : option string) (default_voice_id : string)
        (post : string -> string -> HttpReply)
        (write_file : string -> list byte -> bool)
        (text : string) (voice_id output_path : option string)
        (audio : list byte) :
  ElevenLabsService.text_to_speech api_key default_voice_id post write_file
    text voice_id output_path = Some audio ->
  Py.truthy api_key = true /\
  Py.strip text <> EmptyString /\
  (exists voice, post voice text = Responded 200 audio) /\
  (forall path, output_path = Some path -> path <> EmptyString ->
                write_file path audio = true).
Proof.
  unfold ElevenLabsService.text_to_speech.
  destruct (Py.truthy api_key); [|discriminate]. cbn [negb].
  destruct (Py.strip text) as [|c r] eqn:Ht; [discriminate|]. cbn [Py.truthy negb].
  destruct (post _ text) as [status content|e] eqn:Hp; [|discriminate].
  destruct (Z.eqb_spec status 200) as [->|]; [|discriminate].
  intros H. split; [reflexivity|]. split; [discriminate|].
  destruct output_path as [[|c' path]|]; cbn in H.
  - inversion H; subst. split; [eexists; exact Hp|].
    intros path Hpath Hne. inversion Hpath; subst. contradiction.
  - destruct (write_file (String c' path) content) eqn:Hw; [|discriminate].
    inversion H; subst. split; [eexists; exact Hp|].
    intros path' Hpath _. inversion Hpath; subst. exact Hw.
  - inversion H; subst. split; [eexists; exact Hp|].
    intros path Hpath. discriminate.
Qed.

Lemma speech_is_the_answer_of_the_endpoint_witness :
  Py.strip "hi" <> EmptyString.
Proof.
  apply (speech_is_the_answer_of_the_endpoint (Some "key") "voice"
           (fun _ _ => Responded 200 [x01%byte]) (fun _ _ => true)
           "hi" None None [x01%byte]).
  reflexivity.
Defined.

Lemma unwritable_synthesis (svc : Services) (api_key : option string)
      (default_voice_id : string) (post : string -> string -> HttpReply)
      (reply : string) :
  text_to_speech svc
    = ElevenLabsService.as_service api_key default_voice_id post
        (fun _ _ => false) ->
  path_synthesis_ok svc reply = false.
Proof.
  intros Hs. unfold path_synthesis_ok, _generate_audio_response.
  destruct (named_temporary_file svc) as [[[|c path]|]|e]; try reflexivity.
  - destruct (text_to_speech svc reply (Some EmptyString)) as [a|e];
      [destruct (truthy_bytes a)|]; reflexivity.
  - rewrite Hs. unfold ElevenLabsService.as_service,
      ElevenLabsService.text_to_speech.
    destruct (Py.truthy api_key); [|reflexivity]. cbn [negb].
    destruct (Py.strip reply); [reflexivity|]. cbn [Py.truthy negb].
    destruct (post _ reply) as [status content|e]; [|reflexivity].
    destruct (status =? 200); reflexivity.
Qed.

(** X16: with the text-to-speech adapter of the repository, when the
    audio file cannot be written the path-based turn never succeeds and
    never touches the history, whatever the three services answer; the
    bytes-based turn, which writes no file, succeeds on the same answers
    as soon as the transcript and the reply are not blank and the
    endpoint returns audio. *)
Theorem unwritable_file_fails_path_turn (svc : Services)
        (api_key : option string) (default_voice_id : string)
        (post : string -> string -> HttpReply)
        (p l : string) (b : list byte) (h : list Message) :
  text_to_speech svc
    = ElevenLabsService.as_service api_key default_voice_id post
        (fun _ _ => false) ->
  success (fst (process_audio_conversation svc p l h)) = false /\
  snd (process_audio_conversation svc p l h) = h /\
  (forall t r audio,
      transcribe_audio_from_bytes svc b l = Returns (Some t) ->
      t <> EmptyString ->
      generate_audio_conversation_response svc t h = Returns (Some r) ->
      Py.strip r <> EmptyString ->
      Py.truthy api_key = true ->
      post default_voice_id r = Responded 200 audio ->
      audio <> [] ->
      success (fst (process_audio_conversation_from_bytes svc b l h)) = true).
Proof.
  intros Hs.
  assert (Hok : path_turn_ok svc p l h = false).
  { unfold path_turn_ok.
    rewrite (unwritable_synthesis svc api_key default_voice_id post _ Hs).
    apply andb_false_r. }
  split; [rewrite path_turn_success; exact Hok|].
  split; [rewrite path_turn_history, Hok; reflexivity|].
  intros t r audio Ht Hne Hg Hr Hk Hp Ha.
  rewrite bytes_turn_success. unfold bytes_turn_ok.
  rewrite Ht. cbn [text_of]. rewrite Hg. cbn [text_of].
  rewrite Hs. unfold ElevenLabsService.as_service,
    ElevenLabsService.text_to_speech.
  rewrite Hk. cbn [negb].
  destruct (Py.strip r) as [|c r'] eqn:Er; [contradiction|].
  cbn [Py.truthy negb]. rewrite Hp. cbn.
  destruct t as [|c0 t0]; [contradiction|].
  destruct r as [|c1 r1]; [discriminate Er|].
  destruct audio; [contradiction|]. reflexivity.
Qed.

Lemma unwritable_file_fails_path_turn_witness :
  success
    (fst (process_audio_conversation
            (mkServices (fun _ _ => Returns (Some "hello"))
                        (fun _ _ => Returns (Some "hello"))
                        (fun _ _ => Returns (Some "hi"))
                        (ElevenLabsService.as_service (Some "key") "voice"
                           (fun _ _ => Responded 200 [x01%byte])
                           (fun _ _ => false))
                        (Returns (Some "/tmp/reply.mp3")))
            "in.m4a" "en-US" [])) = false.
Proof.
  apply (unwritable_file_fails_path_turn _ (Some "key") "voice"
           (fun _ _ => Responded 200 [x01%byte]) "in.m4a" "en-US"
           [x00%byte] []).
  reflexivity.
Defined.

End SpeechAdapter.

(* ===================================================================== *)
(** ** The chat route *)
(* ===================================================================== *)

Module ChatRoute.
Import ConversationManager MedicalLogic FlowSpec FlowFacts SessionFacts
       MoreSpec App.

(** A request with a usable message is served through the store and the
    engine. *)
Lemma chat_served (m : string) (s : option string) (clock : ChatClock)
      (g : GroqClient) (convs : gmap string ConversationState) :
  Py.strip m <> EmptyString ->
  chat (Some (mkChatRequest (Some m) s)) clock g convs =
    (ChatOk
       (bot_message
          (process_message (Py.strip m)
             (fst (get_conversation (default "default" s) (at_get clock)
                     (at_created clock) (at_updated clock) convs)) g))
       (default "default" s)
       (question_number
          (conversation_state
             (process_message (Py.strip m)
                (fst (get_conversation (default "default" s) (at_get clock)
                        (at_created clock) (at_updated clock) convs)) g)))
       (is_complete
          (conversation_state
             (process_message (Py.strip m)
                (fst (get_conversation (default "default" s) (at_get clock)
                        (at_created clock) (at_updated clock) convs)) g)))
       (at_reply clock),
     update_conversation (default "default" s)
       (conversation_state
          (process_message (Py.strip m)
             (fst (get_conversation (default "default" s) (at_get clock)
                     (at_created clock) (at_updated clock) convs)) g))
       (at_update clock)
       (snd (get_conversation (default "default" s) (at_get clock)
               (at_created clock) (at_updated clock) convs))).
Proof.
  intros Hm. unfold chat.
  destruct (Py.strip m) as [|c r] eqn:E; [contradiction|].
  destruct (get_conversation _ _ _ _ convs) as [st convs1]. reflexivity.
Qed.



(** X18: a served chat request stores what it reports: the state kept
    under the session id afterwards has the [question_number] and the
    [is_complete] of the reply and is stamped with the time of the
    update; the reply text is not empty; a request without [session_id]
    is served on the session "default"; no other session is touched. *)
Theorem chat_stores_what_it_reports (m : string) (s : option string)
        (clock : ChatClock) (g : GroqClient)
        (convs : gmap string ConversationState) :
  Py.strip m <> EmptyString ->
  exists reply st,
    fst (chat (Some (mkChatRequest (Some m) s)) clock g convs)
      = ChatOk reply (default "default" s) (question_number st)
               (is_complete st) (at_reply clock) /\
    reply <> EmptyString /\
    snd (chat (Some (mkChatRequest (Some m) s)) clock g convs)
      !! default "default" s = Some st /\
    last_updated st = IsoText (at_update clock) /\
    (forall other,
        other <> default "default" s ->
        snd (chat (Some (mkChatRequest (Some m) s)) clock g convs) !! other
          = convs !! other).
Proof.
  intros Hm. rewrite (chat_served m s clock g convs Hm). cbn [fst snd].
  eexists _, (set_last_updated (IsoText (at_update clock)) _).
  split; [reflexivity|].
  split; [apply FlowInvariants.bot_message_nonempty|].
  split; [apply lookup_insert_eq|].
  split; [reflexivity|].
  intros other Hne. unfold update_conversation.
  rewrite lookup_insert_ne by congruence.
  apply SessionStore.get_conversation_stored. exact Hne.
Qed.

Lemma chat_stores_what_it_reports_witness :
  exists reply st,
    fst (chat (Some (mkChatRequest (Some "I have a headache") None))
              (mkChatClock 1 2 3 4 5) groq_unavailable ∅)
      = ChatOk reply "default" (question_number st) (is_complete st) 5 /\
    reply <> EmptyString /\
    snd (chat (Some (mkChatRequest (Some "I have a headache") None))
              (mkChatClock 1 2 3 4 5) groq_unavailable ∅) !! "default"
      = Some st /\
    last_updated st = IsoText 4 /\
    (forall other,
        other <> "default" ->
        snd (chat (Some (mkChatRequest (Some "I have a headache") None))
                  (mkChatClock 1 2 3 4 5) groq_unavailable ∅) !! other
          = (∅ : gmap string ConversationState) !! other).
Proof.
  apply (chat_stores_what_it_reports "I have a headache" None
           (mkChatClock 1 2 3 4 5) groq_unavailable ∅).
  vm_compute. discriminate.
Defined.

Lemma chat_fresh_session (m : string) (s : option string)
        (clock : ChatClock) (g : GroqClient)
        (convs : gmap string ConversationState) :
  Py.strip m <> EmptyString ->
  convs !! default "default" s = None \/
  (exists old, convs !! default "default" s = Some old /\
               _is_conversation_expired (at_get clock) old = true) ->
  (exists reply,
      fst (chat (Some (mkChatRequest (Some m) s)) clock g convs)
        = ChatOk reply (default "default" s) 1 false (at_reply clock)) /\
  snd (chat (Some (mkChatRequest (Some m) s)) clock g convs)
    !! default "default" s
    = Some (mkState 1 false
              (_extract_symptom (_normalize_message (Py.strip m))) []
              (IsoText (at_created clock)) (IsoText (at_update clock))).
Proof.
  intros Hm Hs. rewrite (chat_served m s clock g convs Hm). cbn [fst snd].
  assert (Hget : fst (get_conversation (default "default" s) (at_get clock)
                        (at_created clock) (at_updated clock) convs)
                 = _create_new_conversation (at_created clock)
                     (at_updated clock)).
  { unfold get_conversation.
    destruct Hs as [->|(old & -> & ->)]; reflexivity. }
  rewrite Hget. rewrite process_message_initial by reflexivity.
  split; [eexists; reflexivity|].
  unfold update_conversation. rewrite lookup_insert_eq. reflexivity.
Qed.

(** X19: a served chat request on a session that is not stored yet, or
    whose stored state is expired at the time of the request, is handled
    as the first message of a new session: the reply reports
    [question_number = 1] and [is_complete = False], and the state stored
    has no answers and the symptom read off this message. *)
Theorem chat_starts_new_session (m : string) (s : option string)
        (clock : ChatClock) (g : GroqClient)
        (convs : gmap string ConversationState) :
  Py.strip m <> EmptyString ->
  convs !! default "default" s = None \/
  (exists old, convs !! default "default" s = Some old /\
               _is_conversation_expired (at_get clock) old = true) ->
  (exists reply,
      fst (chat (Some (mkChatRequest (Some m) s)) clock g convs)
        = ChatOk reply (default "default" s) 1 false (at_reply clock)) /\
  snd (chat (Some (mkChatRequest (Some m) s)) clock g convs)
    !! default "default" s
    = Some (mkState 1 false
              (_extract_symptom (_normalize_message (Py.strip m))) []
              (IsoText (at_created clock)) (IsoText (at_update clock))).
Proof. apply chat_fresh_session. Qed.

Lemma chat_starts_new_session_witness :
  snd (chat (Some (mkChatRequest (Some "I have a headache") (Some "s1")))
            (mkChatClock 1 2 3 4 5) groq_unavailable ∅) !! "s1"
  = Some (mkState 1 false "headache" [] (IsoText 2) (IsoText 4)).
Proof.
  destruct (chat_starts_new_session "I have a headache" (Some "s1")
              (mkChatClock 1 2 3 4 5) groq_unavailable ∅) as [_ H].
  - vm_compute. discriminate.
  - left. reflexivity.
  - refine (eq_trans H _). vm_compute. reflexivity.
Defined.

Lemma after_turns_stamped (k : Z) (st : ConversationState) (t : isotext) :
  after_turns k st -> after_turns k (set_last_updated t st).
Proof. intros H. exact H. Qed.

(** A request that arrives in time on a stored session is one more turn
    of that session. *)
Lemma chat_in_time (m : string) (s : option string) (clock : ChatClock)
      (g : GroqClient) (convs : gmap string ConversationState)
      (st : ConversationState) (lu : Z) :
  Py.strip m <> EmptyString ->
  convs !! default "default" s = Some st ->
  last_updated st = IsoText lu ->
  at_get clock <= lu + timedelta_hours expiry_hours ->
  snd (chat (Some (mkChatRequest (Some m) s)) clock g convs)
    !! default "default" s
  = Some (set_last_updated (IsoText (at_update clock))
            (conversation_state (process_message (Py.strip m) st g))).
Proof.
  intros Hm Hl Hlu Ht. rewrite (chat_served m s clock g convs Hm). cbn [snd].
  unfold update_conversation. rewrite lookup_insert_eq.
  unfold get_conversation. rewrite Hl.
  unfold _is_conversation_expired. rewrite Hlu. cbn [fromisoformat].
  destruct (Z.ltb_spec (lu + timedelta_hours expiry_hours) (at_get clock));
    [lia|reflexivity].
Qed.

Lemma serve_chats_in_time (sid : string)
      (requests : list (ChatRequest * ChatClock * GroqClient)) :
  forall (convs : gmap string ConversationState) (st : ConversationState)
         (k lu : Z),
    0 <= k ->
    convs !! sid = Some st ->
    last_updated st = IsoText lu ->
    after_turns k st ->
    in_time sid lu requests ->
    exists st',
      serve_chats requests convs !! sid = Some st' /\
      after_turns (k + Z.of_nat (length requests)) st'.
Proof.
  induction requests as [|[[data clock] g] rest IH];
    intros convs st k lu Hk Hl Hlu Hst Hin.
  - exists st. cbn. rewrite Z.add_0_r. split; assumption.
  - cbn [in_time] in Hin. destruct Hin as (Hreq & Ht & Hrest).
    destruct data as [[m|] s]; [|contradiction].
    destruct Hreq as [Hm Hs]. subst sid.
    cbn [serve_chats length].
    replace (k + Z.of_nat (S (length rest)))
      with ((k + 1) + Z.of_nat (length rest)) by lia.
    eapply IH.
    + lia.
    + apply (chat_in_time m s clock g convs st lu); assumption.
    + reflexivity.
    + apply after_turns_stamped, after_turns_step; assumption.
    + exact Hrest.
Qed.

(** X20: chat requests served one after the other on a session that was
    not stored before, each with a usable message and each arriving no
    later than 24 hours after the update of the one before, drive the
    stored state like the turns of one session: after [k] requests
    [question_number] is [min k 3], [answers] holds [k - 1] entries and
    [is_complete] is true exactly from the fourth request on. *)
Theorem chats_drive_one_session (sid : string) (first : ChatRequest)
        (clock : ChatClock) (g : GroqClient)
        (rest : list (ChatRequest * ChatClock * GroqClient))
        (convs : gmap string ConversationState) :
  convs !! sid = None ->
  request_for sid first ->
  in_time sid (at_update clock) rest ->
  exists st,
    serve_chats ((first, clock, g) :: rest) convs !! sid = Some st /\
    question_number st = Z.min (1 + Z.of_nat (length rest)) 3 /\
    Z.of_nat (length (answers st)) = Z.of_nat (length rest) /\
    is_complete st = (3 <? 1 + Z.of_nat (length rest)).
Proof.
  intros Hn Hreq Hin.
  destruct first as [[m|] s]; [|contradiction].
  destruct Hreq as [Hm Hs]. subst sid.
  cbn [serve_chats].
  destruct (chat_fresh_session m s clock g convs Hm (or_introl Hn))
    as [_ Hst].
  destruct (serve_chats_in_time (default "default" s) rest _ _ 1
              (at_update clock) ltac:(lia) Hst eq_refl) as (st & Hl & Ha).
  - repeat split.
  - exact Hin.
  - exists st. split; [exact Hl|].
    destruct Ha as (Hq & Hlen & Hc). unfold max_questions in *.
    repeat split; [exact Hq|lia|exact Hc].
Qed.

Lemma chats_drive_one_session_witness :
  exists st,
    serve_chats
      [(mkChatRequest (Some "I have a headache") (Some "s1"),
        mkChatClock 0 0 0 1 1, groq_unavailable);
       (mkChatRequest (Some "a week") (Some "s1"),
        mkChatClock 10 10 10 11 11, groq_unavailable);
       (mkChatRequest (Some "it is mild") (Some "s1"),
        mkChatClock 20 20 20 21 21, groq_unavailable);
       (mkChatRequest (Some "worse at dusk") (Some "s1"),
        mkChatClock 30 30 30 31 31, groq_unavailable)] ∅ !! "s1" = Some st /\
    question_number st = 3 /\
    Z.of_nat (length (answers st)) = 3 /\
    is_complete st = true.
Proof.
  apply (chats_drive_one_session "s1"
           (mkChatRequest (Some "I have a headache") (Some "s1"))
           (mkChatClock 0 0 0 1 1) groq_unavailable
           [(mkChatRequest (Some "a week") (Some "s1"),
             mkChatClock 10 10 10 11 11, groq_unavailable);
            (mkChatRequest (Some "it is mild") (Some "s1"),
             mkChatClock 20 20 20 21 21, groq_unavailable);
            (mkChatRequest (Some "worse at dusk") (Some "s1"),
             mkChatClock 30 30 30 31 31, groq_unavailable)] ∅).
  - reflexivity.
  - split; [vm_compute; discriminate|reflexivity].
  - cbn. repeat split; try (vm_compute; discriminate); try reflexivity;
      unfold timedelta_hours, expiry_hours; lia.
Defined.

(** X21: after a reset of a session through the reset route, the next
    served chat request on that session is handled as a first message
    ([question_number = 1], not complete), whatever state the session was
    in (a completed one too) and whatever the clock readings are. *)
Theorem reset_starts_new_cycle (m : string) (s : option string)
        (t1 t2 : Z) (clock : ChatClock) (g : GroqClient)
        (convs : gmap string ConversationState) :
  Py.strip m <> EmptyString ->
  fst (reset_route (Some (mkChatRequest None s)) t1 t2 convs) = 200 /\
  exists reply,
    fst (chat (Some (mkChatRequest (Some m) s)) clock g
              (snd (reset_route (Some (mkChatRequest None s)) t1 t2 convs)))
    = ChatOk reply (default "default" s) 1 false (at_reply clock).
Proof.
  intros Hm. split; [reflexivity|].
  rewrite (chat_served m s clock g _ Hm). cbn [fst snd reset_route].
  assert (Hq : question_number
                 (fst (get_conversation (default "default" s) (at_get clock)
                         (at_created clock) (at_updated clock)
                         (reset_conversation (default "default" s) t1 t2 convs)))
               = 0) by apply StoreMore.reset_get_blank.
  assert (Hc : is_complete
                 (fst (get_conversation (default "default" s) (at_get clock)
                         (at_created clock) (at_updated clock)
                         (reset_conversation (default "default" s) t1 t2 convs)))
               = false) by apply StoreMore.reset_get_blank.
  rewrite process_message_initial by exact Hq. cbn.
  rewrite Hc. eexists. reflexivity.
Qed.

Lemma reset_starts_new_cycle_witness :
  exists reply,
    fst (chat (Some (mkChatRequest (Some "I feel dizzy") (Some "s1")))
              (mkChatClock 9 9 9 9 9) groq_unavailable
              (snd (reset_route (Some (mkChatRequest None (Some "s1"))) 7 7
                      {["s1" := FlowSpec.diagnosed]})))
    = ChatOk reply "s1" 1 false 9.
Proof.
  apply (reset_starts_new_cycle "I feel dizzy" (Some "s1") 7 7
           (mkChatClock 9 9 9 9 9) groq_unavailable
           {["s1" := FlowSpec.diagnosed]}).
  vm_compute. discriminate.
Defined.

End ChatRoute.
